(** * updates: voice notes to Readwise highlights

    A shallow embedding of the Python package [updates] (modules [schemas],
    [state], [services.elevenlabs], [services.claude], [services.readwise]
    and [api]) together with the properties its specification states.

    Conventions of the embedding.
    - A Python [str] is a [string]; each character stands for one code point.
    - A naive [datetime] is the number of microseconds since
      0001-01-01T00:00:00; [datetime.now()] is an input: every function that
      reads the clock takes the value read as its [now] argument.
    - Exceptions are values of [exn]; fallible code lives in [Result], code
      that also mutates lives in the state-and-exception monad [M].
    - The three remote providers are functions from the request sent to the
      outcome observed; they are section variables of the module that calls
      them. *)

From Stdlib Require Import ZArith List String Ascii SpecFloat Lia.
From Stdlib Require Import Sorting.Sorted Sorting.Permutation.
From stdpp Require Import base option gmap strings list pretty.

#[local] Set Warnings "-register-all".

#[local] Open Scope Z_scope.

(** ** Python runtime values and exceptions *)

Module py.

(** Dynamically typed values: what [response.json()] can return and what a
    JSON request body holds. *)
Inductive pyval : Type :=
  | PNone
  | PBool (b : bool)
  | PInt (n : Z)
  | PFloat (f : spec_float)
  | PStr (s : string)
  | PList (l : list pyval)
  | PDict (d : gmap string pyval).

(** [type(v).__name__] *)
Definition type_name (v : pyval) : string :=
  match v with
  | PNone => "NoneType"
  | PBool _ => "bool"
  | PInt _ => "int"
  | PFloat _ => "float"
  | PStr _ => "str"
  | PList _ => "list"
  | PDict _ => "dict"
  end.

(** [bool(v)] *)
Definition truthy (v : pyval) : bool :=
  match v with
  | PNone => false
  | PBool b => b
  | PInt n => negb (Z.eqb n 0)
  | PFloat f => match f with S754_zero _ => false | _ => true end
  | PStr s => negb (String.eqb s "")
  | PList l => match l with [] => false | _ => true end
  | PDict d => negb (Nat.eqb (size d) 0)
  end.

(** Truth value of a [str | None]: false for [None] and for the empty
    string. *)
Definition str_truthy (o : option string) : bool :=
  match o with
  | None => false
  | Some s => negb (String.eqb s "")
  end.

(** [o or d] for [o : str | None] *)
Definition str_or (o : option string) (d : string) : string :=
  match o with
  | Some s => if String.eqb s "" then d else s
  | None => d
  end.

(** [s[:n]] for [n >= 0] *)
Fixpoint str_take (n : nat) (s : string) : string :=
  match n, s with
  | O, _ => ""
  | S _, EmptyString => ""
  | S n', String c s' => String c (str_take n' s')
  end.

(** [sep.join(l)] *)
Fixpoint str_join (sep : string) (l : list string) : string :=
  match l with
  | [] => ""
  | [s] => s
  | s :: rest => s +:+ sep +:+ str_join sep rest
  end.

(** [l[:limit]]: a negative bound counts from the end of the list. *)
Definition slice_to {A : Type} (limit : Z) (l : list A) : list A :=
  if 0 <=? limit then take (Z.to_nat limit) l
  else take (Z.to_nat (Z.of_nat (length l) + limit)) l.

(** The value of a [str | None] *)
Definition of_opt_str (o : option string) : pyval :=
  match o with
  | Some s => PStr s
  | None => PNone
  end.

(** [f"{o}"] for [o : str | None] *)
Definition fmt_opt_str (o : option string) : string :=
  match o with
  | Some s => s
  | None => "None"
  end.

(** [repr(s)] for a [str]: single quotes, unless the string holds a single
    quote and no double quote; the quote in use and the backslash are
    escaped, so are tab, newline and carriage return, and every other
    character that is not printable is written [\xhh]. Of the code points
    below 256 the printable ones are 32..126 and 161..255 without 173. *)
Definition hex_digit (n : nat) : ascii :=
  nth n ["0"; "1"; "2"; "3"; "4"; "5"; "6"; "7"; "8"; "9";
         "a"; "b"; "c"; "d"; "e"; "f"]%char "0"%char.

Definition printable (c : ascii) : bool :=
  let n := nat_of_ascii c in
  ((32 <=? n) && (n <=? 126) || (161 <=? n) && negb (n =? 173))%nat.

Fixpoint str_contains (c : ascii) (s : string) : bool :=
  match s with
  | EmptyString => false
  | String d s' => Ascii.eqb c d || str_contains c s'
  end.

Fixpoint repr_body (quote : ascii) (s : string) : string :=
  match s with
  | EmptyString => ""
  | String c s' =>
      (if Ascii.eqb c quote || Ascii.eqb c "092" then String "092" (String c "")
       else if Ascii.eqb c "009" then String "092" "t"
       else if Ascii.eqb c "010" then String "092" "n"
       else if Ascii.eqb c "013" then String "092" "r"
       else if printable c then String c ""
       else String "092"
              (String "x"
                 (String (hex_digit (nat_of_ascii c / 16))
                    (String (hex_digit (nat_of_ascii c mod 16)) ""))))
      +:+ repr_body quote s'
  end.

Definition py_repr (s : string) : string :=
  let quote : ascii :=
    if str_contains "039" s && negb (str_contains "034" s)
    then "034"%char else "039"%char in
  String quote (repr_body quote s +:+ String quote "").

(** Exceptions.  [Builtin kind msg] is any exception class the package does
    not define itself ([AttributeError], [TypeError], [OverflowError],
    pydantic's [ValidationError], whatever a provider SDK raises). *)
Inductive exn : Type :=
  | Builtin (kind : string) (msg : string)
  | HTTPStatusError (status_code : Z) (msg : string)
  | TranscriptionError (msg : string)
  | ParsingError (msg : string)
  | ReadwiseError (msg : string)
  | HTTPException (status_code : Z) (detail : string).

(** [str(e)] *)
Definition exn_str (e : exn) : string :=
  match e with
  | Builtin _ msg => msg
  | HTTPStatusError _ msg => msg
  | TranscriptionError msg => msg
  | ParsingError msg => msg
  | ReadwiseError msg => msg
  | HTTPException code detail => pretty code +:+ ": " +:+ detail
  end.

Inductive Result (A : Type) : Type :=
  | Ok (a : A)
  | Raise (e : exn).
Arguments Ok {A} a.
Arguments Raise {A} e.

#[export] Instance Result_ret : MRet Result := @Ok.
#[export] Instance Result_bind : MBind Result :=
  fun A B f r => match r with Ok a => f a | Raise e => Raise e end.

(** [try: body  except Exception as e: handler(e)] *)
Definition try_except {A : Type} (body : Result A) (handler : exn -> Result A)
  : Result A :=
  match body with
  | Ok a => Ok a
  | Raise e => handler e
  end.

(** State and exceptions: a raised exception keeps the mutations made before
    it. *)
Definition M (S A : Type) : Type := S -> Result A * S.

#[export] Instance M_ret {S} : MRet (M S) := fun A a s => (Ok a, s).
#[export] Instance M_bind {S} : MBind (M S) :=
  fun A B f m s =>
    match m s with
    | (Ok a, s') => f a s'
    | (Raise e, s') => (Raise e, s')
    end.

Definition raise {S A : Type} (e : exn) : M S A := fun s => (Raise e, s).
Definition lift {S A : Type} (r : Result A) : M S A := fun s => (r, s).
Definition get {S : Type} : M S S := fun s => (Ok s, s).
Definition modify {S : Type} (f : S -> S) : M S unit := fun s => (Ok tt, f s).

Definition try_exceptM {S A : Type} (body : M S A) (handler : exn -> M S A)
  : M S A :=
  fun s =>
    match body s with
    | (Ok a, s') => (Ok a, s')
    | (Raise e, s') => handler e s'
    end.

(** *** Naive datetimes *)

Definition datetime : Type := Z.

Definition us_per_second : Z := 1000000.
Definition us_per_hour : Z := 3600 * us_per_second.

(** [datetime.max], 9999-12-31T23:59:59.999999 ([date.max.toordinal()] is
    3652059). *)
Definition datetime_max : datetime := 3652059 * 86400 * us_per_second - 1.

(** [timedelta(hours=h)], in microseconds: the day count of a [timedelta]
    has magnitude at most 999999999. *)
Definition timedelta_hours (h : Z) : Result Z :=
  let days := h * 3600 / 86400 in
  if (-999999999 <=? days) && (days <=? 999999999)
  then Ok (h * us_per_hour)
  else Raise (Builtin "OverflowError"
                ("days=" +:+ pretty days +:+ "; must have magnitude <= 999999999")).

(** [t - delta] *)
Definition datetime_sub (t : datetime) (delta : Z) : Result datetime :=
  let r := t - delta in
  if (0 <=? r) && (r <=? datetime_max)
  then Ok r
  else Raise (Builtin "OverflowError" "date value out of range").

Definition hour (t : datetime) : Z := (t / us_per_hour) mod 24.
Definition minute (t : datetime) : Z := (t / (60 * us_per_second)) mod 60.

(** [%H] and [%M]: two decimal digits, zero padded *)
Definition two_digits (n : Z) : string :=
  (if n <? 10 then "0" else "") +:+ pretty n.

(** [t.strftime("%H:%M")] *)
Definition strftime_HM (t : datetime) : string :=
  two_digits (hour t) +:+ ":" +:+ two_digits (minute t).

(** [l.sort(key=key, reverse=True)]: the sort is stable, and with
    [reverse=True] records with equal keys keep their original order. *)
Section Sort.
Context {A : Type} (key : A -> Z).

Fixpoint insert_desc (x : A) (l : list A) : list A :=
  match l with
  | [] => [x]
  | y :: l' => if key y <=? key x then x :: y :: l' else y :: insert_desc x l'
  end.

Fixpoint sort_desc (l : list A) : list A :=
  match l with
  | [] => []
  | x :: l' => insert_desc x (sort_desc l')
  end.

(** Newest first: [a] may come before [b]. *)
Definition desc (a b : A) : Prop := key b <= key a.
End Sort.

End py.
Import py.

(** ** schemas.py *)

Module schemas.

Inductive Category : Type := books | articles | podcasts | tweets.

Inductive LocationType : Type := page | order | time_offset.

(** [c.value] *)
Definition Category_value (c : Category) : string :=
  match c with
  | books => "books"
  | articles => "articles"
  | podcasts => "podcasts"
  | tweets => "tweets"
  end.

Definition LocationType_value (t : LocationType) : string :=
  match t with
  | page => "page"
  | order => "order"
  | time_offset => "time_offset"
  end.

(** [Category(s)]: look a member up by value, [ValueError] when there is
    none; the message shows the value as [repr] does. *)
Definition Category_of (s : string) : Result Category :=
  if String.eqb s "books" then Ok books
  else if String.eqb s "articles" then Ok articles
  else if String.eqb s "podcasts" then Ok podcasts
  else if String.eqb s "tweets" then Ok tweets
  else Raise (Builtin "ValueError" (py_repr s +:+ " is not a valid Category")).

Definition LocationType_of (s : string) : Result LocationType :=
  if String.eqb s "page" then Ok page
  else if String.eqb s "order" then Ok order
  else if String.eqb s "time_offset" then Ok time_offset
  else Raise (Builtin "ValueError" (py_repr s +:+ " is not a valid LocationType")).

Record Highlight : Type := {
  text : string;
  title : option string;
  author : option string;
  category : option Category;
  note : option string;
  location : option Z;
  location_type : option LocationType;
}.

Record ProcessResponse : Type := {
  pr_success : bool;
  pr_transcript : string;
  pr_highlight : Highlight;
  pr_readwise_id : option Z;
}.

Record SubmissionRecord : Type := {
  transcript : string;
  highlight : Highlight;
  readwise_id : option Z;
  created_at : datetime;
}.

(** Validation of a field declared [int | None], as the pydantic models
    [SubmissionRecord] and [ProcessResponse] run it on construction: [None]
    and integers are kept as they are; [lax] is the conversion pydantic
    attempts on any other value (a numeric string, say), and the model
    raises [ValidationError] when there is none. The message stands for
    pydantic's longer report. *)
Definition validate_optional_int (lax : pyval -> option Z) (v : pyval)
  : Result (option Z) :=
  match v with
  | PNone => Ok None
  | PInt n => Ok (Some n)
  | _ =>
      match lax v with
      | Some n => Ok (Some n)
      | None =>
          Raise (Builtin "ValidationError" "Input should be a valid integer")
      end
  end.

(** The request and response models of the other routes. *)
Record ParseRequest : Type := {
  pq_text : string;
  include_recent_context : bool;
}.

Record SubmitRequest : Type := {
  sq_text : string;
  sq_title : option string;
  sq_author : option string;
  sq_category : option Category;
  sq_note : option string;
  sq_location : option Z;
  sq_location_type : option LocationType;
}.

Record TranscribeResponse : Type := {
  tr_text : string;
  tr_duration_seconds : option spec_float;
}.

Record SubmitResponse : Type := {
  sr_success : bool;
  sr_readwise_id : option Z;
}.

Record ContextResponse : Type := {
  cr_context : option string;
  cr_set_at : option datetime;
}.

Record RecentResponse : Type := {
  rr_count : Z;
  rr_context_string : string;
  rr_highlights : list SubmissionRecord;
}.

Record HealthResponse : Type := {
  hr_status : string;
  hr_services : gmap string bool;
}.

End schemas.
Import schemas.

(** ** state.py *)

Module state.

(** The module globals [_submissions], [_current_context] and
    [_context_set_at]. *)
Record State : Type := {
  submissions : list SubmissionRecord;
  current_context : option string;
  context_set_at : option datetime;
}.

(** The state of a freshly imported module. *)
Definition initial : State :=
  {| submissions := []; current_context := None; context_set_at := None |}.

Definition add_submission (lax : pyval -> option Z)
    (transcript : string) (highlight : Highlight) (readwise_id : pyval)
    (now : datetime) : M State SubmissionRecord :=
  rid ← lift (validate_optional_int lax readwise_id);
  let record :=
    {| transcript := transcript; highlight := highlight;
       readwise_id := rid; created_at := now |} in
  _ ← modify (fun st =>
        {| submissions := submissions st ++ [record];
           current_context := current_context st;
           context_set_at := context_set_at st |});
  mret record.

Definition get_recent (hours limit : Z) (now : datetime) (st : State)
  : Result (list SubmissionRecord) :=
  delta ← timedelta_hours hours;
  cutoff ← datetime_sub now delta;
  let recent := List.filter (fun s => cutoff <=? created_at s) (submissions st) in
  let recent := sort_desc created_at recent in
  mret (slice_to limit recent).

Definition format_recent_context (submissions : list SubmissionRecord) : string :=
  match submissions with
  | [] => ""
  | _ =>
      let line (s : SubmissionRecord) : string :=
        let title := str_or (title (highlight s)) "Unknown" in
        let text :=
          if 50 <? Z.of_nat (String.length (text (highlight s)))
          then str_take 50 (text (highlight s)) +:+ "..."
          else text (highlight s) in
        let time_str := strftime_HM (created_at s) in
        "- [" +:+ title +:+ "] " +:+ text +:+ " (" +:+ time_str +:+ ")" in
      str_join (String "010" "") ("Recent updates:" :: map line submissions)
  end.

Definition set_context (text : string) (now : datetime) (st : State) : State :=
  {| submissions := submissions st;
     current_context := Some text;
     context_set_at := Some now |}.

Definition get_context (st : State) : option string * option datetime :=
  (current_context st, context_set_at st).

End state.

(** ** services/elevenlabs.py *)

Module elevenlabs.

(** What [client.speech_to_text.convert] returns: [stt_text] is the [text]
    attribute when the object has one, [stt_str] is [str(result)], and
    [stt_audio_duration] the [audio_duration] attribute when there is one. *)
Record SttResult : Type := {
  stt_text : option string;
  stt_str : string;
  stt_audio_duration : option spec_float;
}.

Section Provider.
(** The speech-to-text provider: the exception message when the call
    raises, the result object otherwise. *)
Variable convert : list Byte.byte -> string -> string + SttResult.

Definition transcribe (audio_bytes : list Byte.byte) (filename : string)
  : Result (string * option spec_float) :=
  try_except
    (result ←
       match convert audio_bytes filename with
       | inl msg => Raise (Builtin "Exception" msg)
       | inr result => Ok result
       end;
     let text :=
       match stt_text result with
       | Some t => t
       | None => stt_str result
       end in
     let duration := stt_audio_duration result in
     mret (text, duration))
    (fun e => Raise (TranscriptionError ("Transcription failed: " +:+ exn_str e))).
End Provider.

End elevenlabs.

(** ** services/claude.py *)

Module claude.

(** The structured-output model: every field is always present, with the
    empty string or zero standing for "not specified". *)
Record ParsedHighlight : Type := {
  p_text : string;
  p_title : string;
  p_author : string;
  p_category : string;
  p_note : string;
  p_location : Z;
  p_location_type : string;
}.

(** The [context] argument of [parse]: a dict with the keys ['current'] and
    ['recent']; each entry of ['recent'] is itself a dict from field names to
    [str | None] values. *)
Record Context : Type := {
  current : option string;
  recent : list (gmap string (option string));
}.

(** [f"\n- [{r.get('title', 'Unknown')}] {r.get('text', '')[:100]}"] *)
Definition recent_line (r : gmap string (option string)) : Result string :=
  let title := default (Some "Unknown") (r !! "title") in
  match default (Some "") (r !! "text") with
  | Some text =>
      Ok (String "010" "- [" +:+ fmt_opt_str title +:+ "] " +:+ str_take 100 text)
  | None => Raise (Builtin "TypeError" "'NoneType' object is not subscriptable")
  end.

Definition context_str (context : option Context) : Result string :=
  match context with
  | None => Ok ""
  | Some context =>
      let s :=
        if str_truthy (current context)
        then String "010" "Current context: " +:+ fmt_opt_str (current context)
        else "" in
      match recent context with
      | [] => Ok s
      | rs =>
          foldl (fun acc r => s ← acc; line ← recent_line r; mret (s +:+ line))
                (Ok (s +:+ String "010" "Recent highlights:")) rs
      end
  end.

Definition user_content (transcript : string) (context_str : string) : string :=
  "Transcript: " +:+ transcript +:+
  (if String.eqb context_str "" then ""
   else String "010" (String "010" "Context:") +:+ context_str).

(** The conversion of the provider's record into a [Highlight]. *)
Definition to_highlight (parsed : ParsedHighlight) : Result Highlight :=
  category ←
    (if negb (String.eqb (p_category parsed) "") &&
        existsb (String.eqb (p_category parsed))
                ["books"; "articles"; "podcasts"; "tweets"]
     then c ← Category_of (p_category parsed); mret (Some c)
     else mret None);
  location_type ←
    (if negb (String.eqb (p_location_type parsed) "") &&
        existsb (String.eqb (p_location_type parsed))
                ["page"; "order"; "time_offset"]
     then t ← LocationType_of (p_location_type parsed); mret (Some t)
     else mret None);
  mret {| text := p_text parsed;
          title := if String.eqb (p_title parsed) "" then None
                   else Some (p_title parsed);
          author := if String.eqb (p_author parsed) "" then None
                    else Some (p_author parsed);
          category := category;
          note := if String.eqb (p_note parsed) "" then None
                  else Some (p_note parsed);
          location := if 0 <? p_location parsed then Some (p_location parsed)
                      else None;
          location_type := location_type |}.

Section Provider.
(** The extraction provider, called with the fixed model, system prompt
    and output format: given the user message, the exception message when
    [client.beta.messages.parse] raises, otherwise [response.parsed_output]
    (which is [None] when the response carries no parsed record). *)
Variable messages_parse : string -> string + option ParsedHighlight.

Definition parse (transcript : string) (context : option Context)
  : Result Highlight :=
  try_except
    (cs ← context_str context;
     response ←
       match messages_parse (user_content transcript cs) with
       | inl msg => Raise (Builtin "Exception" msg)
       | inr parsed_output => Ok parsed_output
       end;
     match response with
     | None =>
         Raise (Builtin "AttributeError"
                  "'NoneType' object has no attribute 'category'")
     | Some parsed => to_highlight parsed
     end)
    (fun e => Raise (ParsingError ("Parsing failed: " +:+ exn_str e))).
End Provider.

End claude.

(** ** services/readwise.py *)

Module readwise.

(** A POST issued through [httpx]: the URL, the [Authorization] header and
    the JSON body. *)
Record HttpRequest : Type := {
  url : string;
  authorization : string;
  json : pyval;
}.

(** What the POST comes back with: a transport-level exception, or a
    response with its status code and what [response.json()] does (the
    message of the decoding error, or the decoded value). *)
Inductive HttpOutcome : Type :=
  | TransportError (msg : string)
  | HttpResponse (status_code : Z) (body : string + pyval).

(** [response.raise_for_status()]: any status outside 200..299 raises; the
    message stands for httpx's longer one, which the caller never reads. *)
Definition raise_for_status (status_code : Z) : Result unit :=
  if (200 <=? status_code) && (status_code <=? 299) then Ok tt
  else Raise (HTTPStatusError status_code
                ("HTTP error " +:+ pretty status_code)).

(** The dict [highlight_data]: three fixed keys, then one key for each
    optional field that passes its test. *)
Definition highlight_data (highlight : Highlight) : gmap string pyval :=
  let d : gmap string pyval :=
    <["source_type" := PStr "updates_app"]>
      (<["title" := of_opt_str (title highlight)]>
         (<["text" := PStr (text highlight)]> ∅)) in
  let d := if str_truthy (author highlight)
           then <["author" := of_opt_str (author highlight)]> d else d in
  let d := match category highlight with
           | Some c => <["category" := PStr (Category_value c)]> d
           | None => d
           end in
  let d := if str_truthy (note highlight)
           then <["note" := of_opt_str (note highlight)]> d else d in
  let d := match location highlight with
           | Some n => <["location" := PInt n]> d
           | None => d
           end in
  let d := match location_type highlight with
           | Some t => <["location_type" := PStr (LocationType_value t)]> d
           | None => d
           end in
  d.

(** What is returned once the response has been decoded:
    [data[0].get("id", 0)] when [data] is a non-empty list, [0] otherwise. *)
Definition created_id (data : pyval) : Result pyval :=
  let is_list := match data with PList _ => true | _ => false end in
  let len := match data with PList l => Z.of_nat (length l) | _ => 0 end in
  if truthy data && is_list && (0 <? len)
  then
    match data with
    | PList (PDict d :: _) => Ok (default (PInt 0) (d !! "id"))
    | PList (first :: _) =>
        Raise (Builtin "AttributeError"
                 ("'" +:+ type_name first +:+ "' object has no attribute 'get'"))
    | _ => Raise (Builtin "IndexError" "list index out of range")
    end
  else Ok (PInt 0).

(** The POST that carries a highlight: [json={"highlights": [highlight_data]}]
    with the access token in the [Authorization] header. *)
Definition submission_request (readwise_access_token : string)
    (highlight : Highlight) : HttpRequest :=
  {| url := "https://readwise.io/api/v2/highlights/";
     authorization := "Token " +:+ readwise_access_token;
     json := PDict {[ "highlights" := PList [PDict (highlight_data highlight)] ]} |}.

Section Provider.
(** [settings.readwise_access_token] *)
Variable readwise_access_token : string.
(** The highlights-storage provider. *)
Variable post : HttpRequest -> HttpOutcome.

(** The state threaded through is the list of requests sent so far. *)
Definition submit_highlight (highlight : Highlight)
  : M (list HttpRequest) pyval :=
  if negb (str_truthy (title highlight))
  then raise (ReadwiseError "Title is required for Readwise submission")
  else
    try_exceptM
      (let request := submission_request readwise_access_token highlight in
       _ ← modify (fun sent => (sent ++ [request])%list);
       response ←
         match post request with
         | TransportError msg => raise (Builtin "TransportError" msg)
         | HttpResponse status_code body => mret (status_code, body)
         end;
       _ ← lift (raise_for_status (fst response));
       data ←
         match snd response with
         | inl msg => raise (Builtin "JSONDecodeError" msg)
         | inr data => mret data
         end;
       lift (created_id data))
      (fun e =>
         match e with
         | HTTPStatusError status_code _ =>
             raise (ReadwiseError ("Readwise API error: " +:+ pretty status_code))
         | _ =>
             raise (ReadwiseError ("Failed to submit to Readwise: " +:+ exn_str e))
         end).
End Provider.

(** The GET that probes the access token. *)
Record HttpGet : Type := {
  get_url : string;
  get_authorization : string;
}.

Definition auth_request (readwise_access_token : string) : HttpGet :=
  {| get_url := "https://readwise.io/api/v2/auth/";
     get_authorization := "Token " +:+ readwise_access_token |}.

Section Probe.
Variable readwise_access_token : string.
(** The provider's answer to a GET. *)
Variable get_ : HttpGet -> HttpOutcome.

(** The state threaded through is the list of probes sent so far. *)
Definition check_connection : M (list HttpGet) bool :=
  try_exceptM
    (let request := auth_request readwise_access_token in
     _ ← modify (fun sent => sent ++ [request]);
     match get_ request with
     | TransportError msg => raise (Builtin "TransportError" msg)
     | HttpResponse status_code _ => mret (status_code =? 204)
     end)
    (fun _ => mret false).
End Probe.

End readwise.

(** ** api.py *)

Module api.

(** An uploaded file: its name, if any, and its bytes. *)
Record UploadFile : Type := {
  filename : option string;
  content : list Byte.byte;
}.

(** Everything a request handler can touch: the globals of [state] and the
    requests sent to the highlights-storage provider. *)
Record World : Type := {
  globals : state.State;
  sent : list readwise.HttpRequest;
}.

Definition on_globals {A : Type} (m : M state.State A) : M World A :=
  fun w =>
    let '(r, g) := m (globals w) in
    (r, {| globals := g; sent := sent w |}).

Definition on_network {A : Type} (m : M (list readwise.HttpRequest) A)
  : M World A :=
  fun w =>
    let '(r, n) := m (sent w) in
    (r, {| globals := globals w; sent := n |}).

(** The dict both [/parse] and [/process] build for the extraction step. *)
Definition extraction_context (current : option string)
    (recent : list SubmissionRecord) : claude.Context :=
  {| claude.current := current;
     claude.recent :=
       map (fun s : SubmissionRecord =>
              <["text" := Some (str_take 100 (text (highlight s)))]>
                (<["title" := title (highlight s)]>
                   (∅ : gmap string (option string))))
           recent |}.

Section Providers.
Variable convert : list Byte.byte -> string -> string + elevenlabs.SttResult.
Variable messages_parse : string -> string + option claude.ParsedHighlight.
Variable readwise_access_token : string.
Variable post : readwise.HttpRequest -> readwise.HttpOutcome.
(** pydantic's lax conversion to [int], see [validate_optional_int]. *)
Variable lax : pyval -> option Z.

(** [now_recent] is the clock as [state.get_recent] reads it, [now_record]
    as [state.add_submission] does. *)
Definition process_audio (audio : UploadFile)
    (now_recent now_record : datetime) : M World ProcessResponse :=
  try_exceptM
    (let audio_bytes := content audio in
     '(transcript, _) ←
       lift (elevenlabs.transcribe convert audio_bytes
               (str_or (filename audio) "audio.m4a"));
     w ← get;
     let '(current, _) := state.get_context (globals w) in
     recent ← lift (state.get_recent 2 10 now_recent (globals w));
     let context := extraction_context current recent in
     highlight ← lift (claude.parse messages_parse transcript (Some context));
     readwise_id ←
       on_network (readwise.submit_highlight readwise_access_token post
                     highlight);
     _ ← on_globals (state.add_submission lax transcript highlight
                       readwise_id now_record);
     rid ← lift (validate_optional_int lax readwise_id);
     mret {| pr_success := true;
             pr_transcript := transcript;
             pr_highlight := highlight;
             pr_readwise_id := rid |})
    (fun e =>
       match e with
       | TranscriptionError _ =>
           raise (HTTPException 500 ("Transcription failed: " +:+ exn_str e))
       | ParsingError _ =>
           raise (HTTPException 500 ("Parsing failed: " +:+ exn_str e))
       | ReadwiseError _ =>
           raise (HTTPException 500
                    ("Readwise submission failed: " +:+ exn_str e))
       | _ => raise e
       end).

(** The stages of one run of [process_audio] on [audio], started in the
    world [w]. *)
Definition transcription_succeeds (audio : UploadFile) (transcript : string)
  : Prop :=
  exists duration,
    elevenlabs.transcribe convert (content audio)
      (str_or (filename audio) "audio.m4a") = Ok (transcript, duration).

Definition extraction_succeeds (w : World) (now_recent : datetime)
    (transcript : string) (highlight : Highlight) : Prop :=
  exists recent,
    state.get_recent 2 10 now_recent (globals w) = Ok recent /\
    claude.parse messages_parse transcript
      (Some (extraction_context (state.current_context (globals w)) recent))
    = Ok highlight.

Definition submission_succeeds (w : World) (highlight : Highlight)
    (readwise_id : pyval) : Prop :=
  fst (readwise.submit_highlight readwise_access_token post highlight (sent w))
  = Ok readwise_id.

Definition submission_fails (w : World) (highlight : Highlight) (msg : string)
  : Prop :=
  fst (readwise.submit_highlight readwise_access_token post highlight (sent w))
  = Raise (ReadwiseError msg).
End Providers.

(** The other routes. Each is given the providers it calls; [now] is the
    clock as the route reads it. *)
Section Routes.
Variable convert : list Byte.byte -> string -> string + elevenlabs.SttResult.
Variable messages_parse : string -> string + option claude.ParsedHighlight.
Variable readwise_access_token : string.
Variable post : readwise.HttpRequest -> readwise.HttpOutcome.
Variable get_ : readwise.HttpGet -> readwise.HttpOutcome.
Variable lax : pyval -> option Z.

(** [POST /transcribe] *)
Definition transcribe_audio (audio : UploadFile) : Result TranscribeResponse :=
  try_except
    (let audio_bytes := content audio in
     '(text, duration) ←
       elevenlabs.transcribe convert audio_bytes
         (str_or (filename audio) "audio.m4a");
     mret {| tr_text := text; tr_duration_seconds := duration |})
    (fun e =>
       match e with
       | TranscriptionError _ => Raise (HTTPException 500 (exn_str e))
       | _ => Raise e
       end).

(** [POST /parse] *)
Definition parse_transcript (request : ParseRequest) (now : datetime)
  : M World Highlight :=
  try_exceptM
    (context ←
       (if include_recent_context request
        then
          w ← get;
          let '(current, _) := state.get_context (globals w) in
          recent ← lift (state.get_recent 2 10 now (globals w));
          mret (Some (extraction_context current recent))
        else mret None);
     lift (claude.parse messages_parse (pq_text request) context))
    (fun e =>
       match e with
       | ParsingError _ => raise (HTTPException 500 (exn_str e))
       | _ => raise e
       end).

(** [POST /submit] *)
Definition submit_to_readwise (request : SubmitRequest) : M World SubmitResponse :=
  try_exceptM
    (let highlight :=
       {| text := sq_text request; title := sq_title request;
          author := sq_author request; category := sq_category request;
          note := sq_note request; location := sq_location request;
          location_type := sq_location_type request |} in
     readwise_id ←
       on_network (readwise.submit_highlight readwise_access_token post
                     highlight);
     rid ← lift (validate_optional_int lax readwise_id);
     mret {| sr_success := true; sr_readwise_id := rid |})
    (fun e =>
       match e with
       | ReadwiseError _ => raise (HTTPException 500 (exn_str e))
       | _ => raise e
       end).

(** [GET /context] *)
Definition get_context : M World ContextResponse :=
  w ← get;
  let '(context, set_at) := state.get_context (globals w) in
  mret {| cr_context := context; cr_set_at := set_at |}.

(** [PUT /context]; the body returned is [{"success": True}]. *)
Definition set_context (context : string) (now : datetime) : M World bool :=
  _ ← on_globals (modify (state.set_context context now));
  mret true.

(** [GET /recent] *)
Definition get_recent (now : datetime) : M World RecentResponse :=
  w ← get;
  recent ← lift (state.get_recent 2 10 now (globals w));
  let context_string := state.format_recent_context recent in
  mret {| rr_count := Z.of_nat (length recent);
          rr_context_string := context_string;
          rr_highlights := recent |}.

(** [GET /health]; the state threaded through is the list of probes sent. *)
Definition health_check : M (list readwise.HttpGet) HealthResponse :=
  readwise.check_connection readwise_access_token get_ ≫=
  fun readwise_ok : bool =>
    mret {| hr_status := if readwise_ok then "ok" else "degraded";
            hr_services :=
              <["readwise" := readwise_ok]>
                (<["anthropic" := true]> (<["elevenlabs" := true]> ∅)) |}.
End Routes.


End api.

(** ** The rendering of recent submissions, in the specification's words

    These definitions follow the specification, not the code; the code's
    [state.format_recent_context] is compared with them below. *)

Module spec.

(** The title, or "Unknown" when there is none or it is empty. *)
Definition spec_title (o : option string) : string :=
  match o with
  | Some (String c s) => String c s
  | _ => "Unknown"
  end.

(** The text, cut to [n] characters and followed by an ellipsis exactly
    when it is longer than [n]. *)
Definition spec_truncate (n : nat) (s : string) : string :=
  if decide (String.length s ≤ n)%nat then s else str_take n s +:+ "...".

Definition spec_digit (d : Z) : ascii :=
  ascii_of_nat (48 + Z.to_nat d).

(** Hour and minute of the time of day, two digits each. *)
Definition spec_hh_mm (t : datetime) : string :=
  let second_of_day := (t / 1000000) mod 86400 in
  let h := second_of_day / 3600 in
  let m := (second_of_day mod 3600) / 60 in
  String (spec_digit (h / 10)) (String (spec_digit (h mod 10))
    (String ":" (String (spec_digit (m / 10)) (String (spec_digit (m mod 10)) "")))).

(** One line of the summary: [- [title] truncated-text (HH:MM)]. *)
Definition spec_line (s : SubmissionRecord) : string :=
  "- [" +:+ spec_title (title (highlight s)) +:+ "] "
  +:+ spec_truncate 50 (text (highlight s))
  +:+ " (" +:+ spec_hh_mm (created_at s) +:+ ")".

(** Nothing for an empty history (not even a header); otherwise the header
    followed by one line per record, each on a line of its own. The
    specification does not say what the header reads, so it is a parameter. *)
Definition spec_render (header : string) (submissions : list SubmissionRecord)
  : string :=
  match submissions with
  | [] => ""
  | _ =>
      fold_left (fun acc s => acc +:+ String "010" (spec_line s))
                submissions header
  end.

End spec.

(** ** Sample data used by the examples *)

Module samples.

Definition habits : Highlight :=
  {| text := "Small habits compound over time.";
     title := Some "Atomic Habits"; author := None; category := Some books;
     note := None; location := None; location_type := None |}.

(** The same highlight with no title. *)
Definition untitled : Highlight :=
  {| text := "Small habits compound over time.";
     title := None; author := None; category := None;
     note := None; location := None; location_type := None |}.

(** 2024-05-01T12:00:00 *)
Definition noon : datetime := (739006 * 24 + 12) * us_per_hour.

Definition record_at (h : Highlight) (t : datetime) : SubmissionRecord :=
  {| transcript := "update from atomic habits, small habits compound over time";
     highlight := h; readwise_id := Some 123; created_at := t |}.

(** Four records: one hour, three hours, half an hour and ten minutes
    before [noon]. *)
Definition history : state.State :=
  {| state.submissions :=
       [ record_at habits (noon - us_per_hour);
         record_at habits (noon - 3 * us_per_hour);
         record_at habits (noon - 30 * 60 * us_per_second);
         record_at habits (noon - 10 * 60 * us_per_second) ];
     state.current_context := None;
     state.context_set_at := None |}.

(** What the extraction provider answers in the examples: a record with
    source, category and page, and one with nothing but the text. *)
Definition parsed_habits : claude.ParsedHighlight :=
  {| claude.p_text := "Small habits compound over time.";
     claude.p_title := "Atomic Habits"; claude.p_author := "";
     claude.p_category := "books"; claude.p_note := "";
     claude.p_location := 42; claude.p_location_type := "page" |}.

Definition parsed_bare : claude.ParsedHighlight :=
  {| claude.p_text := "Small habits compound over time.";
     claude.p_title := ""; claude.p_author := "";
     claude.p_category := "invalidvalue"; claude.p_note := "";
     claude.p_location := 0; claude.p_location_type := "" |}.

Definition extracts (p : claude.ParsedHighlight)
  : string -> string + option claude.ParsedHighlight :=
  fun _ => inr (Some p).

(** A highlights-storage provider that answers every request the same
    way. *)
Definition answers (o : readwise.HttpOutcome)
  : readwise.HttpRequest -> readwise.HttpOutcome :=
  fun _ => o.

(** The body Readwise sends for a created highlight with identifier 123. *)
Definition created_123 : pyval :=
  PList [PDict (<["id" := PInt 123]> (<["title" := PStr "Atomic Habits"]> ∅))].

(** A highlight whose optional strings are empty and whose location is 0. *)
Definition habits_blank : Highlight :=
  {| text := "Small habits compound over time.";
     title := Some "Atomic Habits"; author := Some ""; category := None;
     note := Some ""; location := Some 0; location_type := None |}.

(** A speech-to-text provider that hears [t] in every recording. *)
Definition hears (t : string)
  : list Byte.byte -> string -> string + elevenlabs.SttResult :=
  fun _ _ =>
    inr {| elevenlabs.stt_text := Some t; elevenlabs.stt_str := "";
           elevenlabs.stt_audio_duration := None |}.

Definition recording : api.UploadFile :=
  {| api.filename := Some "recording.wav";
     api.content := [Byte.x52; Byte.x49; Byte.x46; Byte.x46] |}.

(** A fresh process: nothing stored, nothing sent. *)
Definition fresh : api.World :=
  {| api.globals := state.initial; api.sent := [] |}.

(** A record model that converts nothing: only [None] and integers pass
    [validate_optional_int]. *)
Definition no_conversion : pyval -> option Z := fun _ => None.

(** An extraction provider that returns [p] for the user message [content]
    and raises on any other message. *)
Definition expects (content : string) (p : claude.ParsedHighlight)
  : string -> string + option claude.ParsedHighlight :=
  fun c => if String.eqb c content then inr (Some p) else inl "unexpected message".

(** A store holding one record, made an hour before [noon], whose highlight
    has no title. *)
Definition untitled_history : state.State :=
  {| state.submissions := [record_at untitled (noon - us_per_hour)];
     state.current_context := None;
     state.context_set_at := None |}.

(** The body of a response whose identifier is a string that is no number. *)
Definition created_x : pyval :=
  PList [PDict (<["id" := PStr "x"]> ∅)].

Definition spoken : string :=
  "update from atomic habits, small habits compound over time".

(** The highlight [parse] makes of [parsed_habits]. *)
Definition habits_page_42 : Highlight :=
  {| text := "Small habits compound over time.";
     title := Some "Atomic Habits"; author := None; category := Some books;
     note := None; location := Some 42; location_type := Some page |}.

(** Providers that fail: a speech-to-text provider and an extraction
    provider that raise with message [msg]. *)
Definition deaf (msg : string)
  : list Byte.byte -> string -> string + elevenlabs.SttResult :=
  fun _ _ => inl msg.

Definition refuses (msg : string)
  : string -> string + option claude.ParsedHighlight :=
  fun _ => inl msg.

End samples.

(** * Properties *)

(** ** The sort behind [list.sort(key=..., reverse=True)] *)

Section SortFacts.
Context {A : Type} (key : A -> Z).

Lemma insert_desc_perm (x : A) (l : list A) :
  Permutation (insert_desc key x l) (x :: l).
Proof.
  induction l as [|y l IH]; simpl.
  - apply Permutation_refl.
  - destruct (key y <=? key x).
    + apply Permutation_refl.
    + apply perm_trans with (y :: x :: l).
      * now apply perm_skip.
      * apply perm_swap.
Qed.

Lemma sort_desc_perm (l : list A) : Permutation (sort_desc key l) l.
Proof.
  induction l as [|x l IH]; simpl.
  - apply perm_nil.
  - apply perm_trans with (x :: sort_desc key l).
    + apply insert_desc_perm.
    + now apply perm_skip.
Qed.

Lemma insert_desc_sorted (x : A) (l : list A) :
  StronglySorted (desc key) l -> StronglySorted (desc key) (insert_desc key x l).
Proof.
  induction 1 as [|y l Hl IH Hy]; simpl.
  - repeat constructor.
  - destruct (Z.leb_spec (key y) (key x)) as [Hle|Hlt].
    + constructor.
      * now constructor.
      * constructor; [exact Hle|].
        eapply List.Forall_impl; [|exact Hy].
        unfold desc in *; intros z Hz; lia.
    + constructor; [exact IH|].
      eapply Permutation_Forall.
      * apply Permutation_sym, insert_desc_perm.
      * constructor; [unfold desc; lia | exact Hy].
Qed.

Lemma sort_desc_sorted (l : list A) : StronglySorted (desc key) (sort_desc key l).
Proof.
  induction l as [|x l IH]; simpl.
  - constructor.
  - now apply insert_desc_sorted.
Qed.

(** Stability: records with the same key come out in the order they went
    in. *)
Lemma insert_desc_stable (k : Z) (x : A) (l : list A) :
  StronglySorted (desc key) l ->
  List.filter (fun a => key a =? k) (insert_desc key x l)
  = List.filter (fun a => key a =? k) (x :: l).
Proof.
  induction 1 as [|y l Hl IH Hy]; [reflexivity|].
  cbn [insert_desc].
  destruct (Z.leb_spec (key y) (key x)) as [Hle|Hlt]; [reflexivity|].
  cbn [List.filter] in *. rewrite IH.
  destruct (Z.eqb_spec (key x) k) as [Hx|Hx];
    destruct (Z.eqb_spec (key y) k) as [Hy'|Hy']; try reflexivity.
  lia.
Qed.

Lemma sort_desc_stable (k : Z) (l : list A) :
  List.filter (fun a => key a =? k) (sort_desc key l)
  = List.filter (fun a => key a =? k) l.
Proof.
  induction l as [|x l IH]; [reflexivity|].
  cbn [sort_desc]. rewrite insert_desc_stable by apply sort_desc_sorted.
  cbn [List.filter]. now rewrite IH.
Qed.
End SortFacts.

(** ** state.py: the recent view *)

Lemma slice_to_take {A : Type} (limit : Z) (l : list A) :
  0 <= limit -> slice_to limit l = take (Z.to_nat limit) l.
Proof.
  intros H. unfold slice_to. now destruct (Z.leb_spec 0 limit); [|lia].
Qed.

Lemma timedelta_hours_ok (hours : Z) :
  -999999999 <= hours * 3600 / 86400 <= 999999999 ->
  timedelta_hours hours = Ok (hours * us_per_hour).
Proof.
  intros [H1 H2]. unfold timedelta_hours.
  destruct (Z.leb_spec (-999999999) (hours * 3600 / 86400)); [|lia].
  destruct (Z.leb_spec (hours * 3600 / 86400) 999999999); [|lia].
  reflexivity.
Qed.

Lemma datetime_sub_ok (t delta : Z) :
  0 <= t - delta <= datetime_max -> datetime_sub t delta = Ok (t - delta).
Proof.
  intros [H1 H2]. unfold datetime_sub.
  destruct (Z.leb_spec 0 (t - delta)); [|lia].
  destruct (Z.leb_spec (t - delta) datetime_max); [|lia].
  reflexivity.
Qed.

(** What [get_recent] computes whenever the cutoff is a representable
    datetime. *)
Lemma get_recent_eq (st : state.State) (now hours limit : Z) :
  -999999999 <= hours * 3600 / 86400 <= 999999999 ->
  0 <= now - hours * us_per_hour <= datetime_max ->
  state.get_recent hours limit now st
  = Ok (slice_to limit
          (sort_desc created_at
             (List.filter (fun s => now - hours * us_per_hour <=? created_at s)
                          (state.submissions st)))).
Proof.
  intros Hh Hc. unfold state.get_recent.
  rewrite timedelta_hours_ok by exact Hh. cbn [mbind Result_bind].
  rewrite datetime_sub_ok by exact Hc. reflexivity.
Qed.

(** C1. [get_recent(hours, limit)] returns the records whose [created_at]
    is at or after [now - hours], newest first, cut to [limit] entries:
    the result [r] is the first [min limit n] entries of the [n] records in
    the window arranged newest first ([r ++ rest] is that arrangement), so
    every record returned is a stored record inside the window and no record
    left out is newer than one returned. *)
Theorem get_recent_spec (st : state.State) (now hours limit : Z) :
  -999999999 <= hours * 3600 / 86400 <= 999999999 ->
  0 <= now - hours * us_per_hour <= datetime_max ->
  0 <= limit ->
  let cutoff := now - hours * us_per_hour in
  let in_window :=
    List.filter (fun s => cutoff <=? created_at s) (state.submissions st) in
  exists r rest : list SubmissionRecord,
    state.get_recent hours limit now st = Ok r /\
    Permutation (r ++ rest) in_window /\
    StronglySorted (fun a b => created_at b <= created_at a) (r ++ rest) /\
    length r = Nat.min (Z.to_nat limit) (length in_window) /\
    (Z.of_nat (length r) <= limit) /\
    (forall s, In s r -> In s (state.submissions st) /\ cutoff <= created_at s).
Proof.
  intros Hh Hc Hl cutoff in_window.
  set (sorted := sort_desc created_at in_window).
  exists (take (Z.to_nat limit) sorted), (drop (Z.to_nat limit) sorted).
  assert (Hperm : Permutation sorted in_window) by apply sort_desc_perm.
  assert (Hlen : length (take (Z.to_nat limit) sorted)
                 = Nat.min (Z.to_nat limit) (length in_window)).
  { rewrite length_take. now rewrite (Permutation_length Hperm). }
  split; [|split; [|split; [|split; [|split]]]].
  - rewrite get_recent_eq by assumption. now rewrite slice_to_take.
  - now rewrite take_drop.
  - rewrite take_drop. apply (sort_desc_sorted created_at).
  - exact Hlen.
  - rewrite Hlen. lia.
  - intros s Hs.
    assert (Hin : In s in_window).
    { eapply Permutation_in; [exact Hperm|].
      rewrite <- (take_drop (Z.to_nat limit) sorted). apply in_or_app. now left. }
    apply filter_In in Hin as [Hin Hcut]. split; [exact Hin|].
    now apply Z.leb_le in Hcut.
Qed.

(** The window of two hours before [noon] over the sample history, cut to
    two records. *)
Lemma get_recent_spec_witness :
  let cutoff := samples.noon - 2 * us_per_hour in
  let in_window :=
    List.filter (fun s => cutoff <=? created_at s)
                (state.submissions samples.history) in
  exists r rest : list SubmissionRecord,
    state.get_recent 2 2 samples.noon samples.history = Ok r /\
    Permutation (r ++ rest) in_window /\
    StronglySorted (fun a b => created_at b <= created_at a) (r ++ rest) /\
    length r = Nat.min (Z.to_nat 2) (length in_window) /\
    (Z.of_nat (length r) <= 2) /\
    (forall s, In s r ->
       In s (state.submissions samples.history) /\ cutoff <= created_at s).
Proof.
  apply (get_recent_spec samples.history samples.noon 2 2).
  - vm_compute. split; discriminate.
  - vm_compute. split; discriminate.
  - lia.
Defined.

Example get_recent_history :
  state.get_recent 2 2 samples.noon samples.history
  = Ok [ samples.record_at samples.habits (samples.noon - 10 * 60 * us_per_second);
         samples.record_at samples.habits (samples.noon - 30 * 60 * us_per_second) ].
Proof. reflexivity. Qed.

(** A negative [limit] drops records from the end of the window instead of
    keeping a prefix of that length. *)
Example get_recent_negative_limit :
  state.get_recent 2 (-1) samples.noon samples.history
  = Ok [ samples.record_at samples.habits (samples.noon - 10 * 60 * us_per_second);
         samples.record_at samples.habits (samples.noon - 30 * 60 * us_per_second) ].
Proof. reflexivity. Qed.

(** ** state.py: the rendering of recent submissions *)

Lemma str_or_unknown (o : option string) :
  str_or o "Unknown" = spec.spec_title o.
Proof. destruct o as [[|c s]|]; reflexivity. Qed.

Lemma truncate_50 (s : string) :
  (if 50 <? Z.of_nat (String.length s) then str_take 50 s +:+ "..." else s)
  = spec.spec_truncate 50 s.
Proof.
  unfold spec.spec_truncate.
  destruct (Z.ltb_spec 50 (Z.of_nat (String.length s))); case_decide;
    try reflexivity; lia.
Qed.

Lemma two_digits_spec (n : Z) :
  0 <= n < 60 ->
  two_digits n
  = String (spec.spec_digit (n / 10)) (String (spec.spec_digit (n mod 10)) "").
Proof.
  intros Hn. rewrite <- (Z2Nat.id n) by lia.
  assert (Hk : (Z.to_nat n < 60)%nat) by lia.
  generalize dependent (Z.to_nat n). clear Hn n. intros k Hk.
  do 60 (destruct k as [|k]; [vm_compute; reflexivity|]). lia.
Qed.

Lemma strftime_HM_spec (t : datetime) : strftime_HM t = spec.spec_hh_mm t.
Proof.
  unfold strftime_HM, spec.spec_hh_mm, hour, minute, us_per_hour, us_per_second.
  assert (Hh : t / (3600 * 1000000) mod 24 = (t / 1000000) mod 86400 / 3600).
  { Z.div_mod_to_equations. lia. }
  assert (Hm : t / (60 * 1000000) mod 60 = (t / 1000000) mod 86400 mod 3600 / 60).
  { Z.div_mod_to_equations. lia. }
  rewrite Hh, Hm.
  rewrite !two_digits_spec; [reflexivity| |]; Z.div_mod_to_equations; lia.
Qed.

Lemma str_app_nil_r (s : string) : s +:+ "" = s.
Proof.
  induction s as [|c s IH]; [reflexivity|].
  change (String c (s +:+ "") = String c s). now rewrite IH.
Qed.

Lemma str_app_assoc (s1 s2 s3 : string) :
  (s1 +:+ s2) +:+ s3 = s1 +:+ (s2 +:+ s3).
Proof.
  induction s1 as [|c s1 IH]; [reflexivity|].
  change (String c ((s1 +:+ s2) +:+ s3) = String c (s1 +:+ s2 +:+ s3)).
  now rewrite IH.
Qed.

Lemma str_join_fold (f : SubmissionRecord -> string) (l : list SubmissionRecord)
    (acc : string) :
  acc +:+ match l with
          | [] => ""
          | _ => String "010" (str_join (String "010" "") (map f l))
          end
  = fold_left (fun a s => a +:+ String "010" (f s)) l acc.
Proof.
  revert acc. induction l as [|x l IH]; intros acc; cbn [fold_left map].
  - apply str_app_nil_r.
  - rewrite <- IH. destruct l as [|y l].
    + cbn [map str_join]. now rewrite str_app_nil_r.
    + cbn [map str_join]. rewrite !str_app_assoc. reflexivity.
Qed.

(** C7. Rendering an empty sequence gives the empty string, not a header
    on its own; rendering a non-empty one gives the header "Recent updates:"
    followed by one line per record of the form
    [- [title] truncated-text (HH:MM)], where the title defaults to
    "Unknown", the text is cut to 50 characters with "..." appended exactly
    when it is longer than 50, and the time is the hour and minute of
    [created_at]: [format_recent_context] is the rendering [spec_render]
    written from the specification. *)
Theorem format_recent_context_spec :
  state.format_recent_context [] = "" /\
  forall submissions : list SubmissionRecord,
    state.format_recent_context submissions
    = spec.spec_render "Recent updates:" submissions.
Proof.
  split; [reflexivity|].
  intros [|s rest]; [reflexivity|].
  unfold state.format_recent_context, spec.spec_render.
  set (line := fun s : SubmissionRecord => _).
  assert (Hline : forall x, line x = spec.spec_line x).
  { intros x. unfold line, spec.spec_line.
    now rewrite str_or_unknown, truncate_50, strftime_HM_spec. }
  rewrite <- (str_join_fold spec.spec_line).
  cbn [str_join map]. rewrite Hline. f_equal. f_equal.
  destruct rest as [|y rest]; [reflexivity|].
  cbn [map str_join].
  assert (Hmap : map line rest = map spec.spec_line rest).
  { apply map_ext. intros x. apply Hline. }
  destruct rest; cbn [map] in *.
  - now rewrite Hline.
  - rewrite !Hline. injection Hmap as H1 H2. now rewrite H2.
Qed.

Example format_recent_context_history :
  state.format_recent_context
    [ samples.record_at samples.habits samples.noon;
      samples.record_at samples.untitled (samples.noon - 175 * 60 * us_per_second) ]
  = "Recent updates:" +:+ String "010"
      "- [Atomic Habits] Small habits compound over time. (12:00)" +:+ String "010"
      "- [Unknown] Small habits compound over time. (09:05)".
Proof. reflexivity. Qed.

(** ** state.py: the current context *)

(** C8. After [set_context(t)], [get_context()] returns exactly [t] and the
    time the clock showed inside the call, which is not before the moment
    [called_at] the call was made (the clock does not run backwards); the
    call replaces both fields, whatever they held, keeps no history of
    earlier values and leaves the submissions alone. *)
Theorem set_context_get_context (st : state.State) (t : string)
    (called_at now : datetime) :
  called_at <= now ->
  state.get_context (state.set_context t now st) = (Some t, Some now) /\
  (exists set_at, snd (state.get_context (state.set_context t now st)) = Some set_at
                  /\ called_at <= set_at) /\
  state.submissions (state.set_context t now st) = state.submissions st /\
  (forall t' now',
     state.set_context t' now' (state.set_context t now st)
     = state.set_context t' now' st).
Proof.
  intros Hclock. repeat split.
  exists now. split; [reflexivity | exact Hclock].
Qed.

(** Setting a context at [noon], the call having been made a microsecond
    earlier. *)
Lemma set_context_get_context_witness :
  state.get_context
    (state.set_context "reading Thinking Fast and Slow" samples.noon samples.history)
  = (Some "reading Thinking Fast and Slow", Some samples.noon).
Proof.
  apply (set_context_get_context samples.history
           "reading Thinking Fast and Slow" (samples.noon - 1) samples.noon).
  lia.
Defined.

(** ** services/claude.py: normalization of the provider's record *)

Lemma to_highlight_category (s : string) :
  exists o : option Category,
    (if negb (String.eqb s "") &&
        existsb (String.eqb s) ["books"; "articles"; "podcasts"; "tweets"]
     then c ← Category_of s; mret (Some c)
     else mret None) = Ok o /\
    (forall c, o = Some c <-> Category_value c = s).
Proof.
  cbn [existsb]. unfold Category_of.
  destruct (String.eqb_spec s "books") as [->|H1].
  { exists (Some books). split; [reflexivity|].
    intros []; split; intros H; try reflexivity; discriminate H. }
  destruct (String.eqb_spec s "articles") as [->|H2].
  { exists (Some articles). split; [reflexivity|].
    intros []; split; intros H; try reflexivity; discriminate H. }
  destruct (String.eqb_spec s "podcasts") as [->|H3].
  { exists (Some podcasts). split; [reflexivity|].
    intros []; split; intros H; try reflexivity; discriminate H. }
  destruct (String.eqb_spec s "tweets") as [->|H4].
  { exists (Some tweets). split; [reflexivity|].
    intros []; split; intros H; try reflexivity; discriminate H. }
  exists None. split.
  - now destruct (negb (String.eqb s "")).
  - intros []; split; intros H; try discriminate H; cbn in H; congruence.
Qed.

Lemma to_highlight_location_type (s : string) :
  exists o : option LocationType,
    (if negb (String.eqb s "") &&
        existsb (String.eqb s) ["page"; "order"; "time_offset"]
     then t ← LocationType_of s; mret (Some t)
     else mret None) = Ok o /\
    (forall t, o = Some t <-> LocationType_value t = s).
Proof.
  cbn [existsb]. unfold LocationType_of.
  destruct (String.eqb_spec s "page") as [->|H1].
  { exists (Some page). split; [reflexivity|].
    intros []; split; intros H; try reflexivity; discriminate H. }
  destruct (String.eqb_spec s "order") as [->|H2].
  { exists (Some order). split; [reflexivity|].
    intros []; split; intros H; try reflexivity; discriminate H. }
  destruct (String.eqb_spec s "time_offset") as [->|H3].
  { exists (Some time_offset). split; [reflexivity|].
    intros []; split; intros H; try reflexivity; discriminate H. }
  exists None. split.
  - now destruct (negb (String.eqb s "")).
  - intros []; split; intros H; try discriminate H; cbn in H; congruence.
Qed.

Lemma nonempty_or_none (s : string) :
  (s = "" -> (if String.eqb s "" then None else Some s) = None) /\
  (s <> "" -> (if String.eqb s "" then None else Some s) = Some s).
Proof.
  destruct (String.eqb_spec s "") as [->|Hne]; split; intros H;
    try reflexivity; contradiction.
Qed.

(** The conversion never raises, and each field of the [Highlight] is
    decided by the matching field of the provider's record alone. *)
Lemma to_highlight_ok (p : claude.ParsedHighlight) :
  exists h : Highlight,
    claude.to_highlight p = Ok h /\
    text h = claude.p_text p /\
    (claude.p_title p = "" -> title h = None) /\
    (claude.p_title p <> "" -> title h = Some (claude.p_title p)) /\
    (claude.p_author p = "" -> author h = None) /\
    (claude.p_author p <> "" -> author h = Some (claude.p_author p)) /\
    (claude.p_note p = "" -> note h = None) /\
    (claude.p_note p <> "" -> note h = Some (claude.p_note p)) /\
    (claude.p_location p = 0 -> location h = None) /\
    (0 < claude.p_location p -> location h = Some (claude.p_location p)) /\
    (forall c, category h = Some c <-> Category_value c = claude.p_category p) /\
    (forall t, location_type h = Some t
               <-> LocationType_value t = claude.p_location_type p).
Proof.
  unfold claude.to_highlight.
  destruct (to_highlight_category (claude.p_category p)) as (oc & Hc & Hciff).
  destruct (to_highlight_location_type (claude.p_location_type p))
    as (ot & Ht & Htiff).
  rewrite Hc. cbn [mbind Result_bind]. rewrite Ht. cbn [mbind Result_bind].
  eexists. split; [reflexivity|]. cbn.
  destruct (nonempty_or_none (claude.p_title p)) as [Ht1 Ht2].
  destruct (nonempty_or_none (claude.p_author p)) as [Ha1 Ha2].
  destruct (nonempty_or_none (claude.p_note p)) as [Hn1 Hn2].
  repeat split; try assumption; try apply Hciff; try apply Htiff.
  - intros H. now rewrite H.
  - intros H. destruct (Z.ltb_spec 0 (claude.p_location p)); [reflexivity | lia].
Qed.

(** C3. Whatever record the extraction provider returns, [parse] turns it
    into a [Highlight] without raising: an empty title, author or note
    becomes absent and a non-empty one is kept; location 0 becomes absent and
    a positive location is passed through; the category is present exactly
    when the provider's string is the value of one of books, articles,
    podcasts, tweets (so the empty string and any other string give absent),
    and likewise the location type for page, order, time_offset. *)
Theorem parse_normalizes
    (messages_parse : string -> string + option claude.ParsedHighlight)
    (transcript : string) (context : option claude.Context) (cs : string)
    (p : claude.ParsedHighlight) :
  claude.context_str context = Ok cs ->
  messages_parse (claude.user_content transcript cs) = inr (Some p) ->
  exists h : Highlight,
    claude.parse messages_parse transcript context = Ok h /\
    text h = claude.p_text p /\
    (claude.p_title p = "" -> title h = None) /\
    (claude.p_title p <> "" -> title h = Some (claude.p_title p)) /\
    (claude.p_author p = "" -> author h = None) /\
    (claude.p_author p <> "" -> author h = Some (claude.p_author p)) /\
    (claude.p_note p = "" -> note h = None) /\
    (claude.p_note p <> "" -> note h = Some (claude.p_note p)) /\
    (claude.p_location p = 0 -> location h = None) /\
    (0 < claude.p_location p -> location h = Some (claude.p_location p)) /\
    (forall c, category h = Some c <-> Category_value c = claude.p_category p) /\
    (forall t, location_type h = Some t
               <-> LocationType_value t = claude.p_location_type p) /\
    (~ In (claude.p_category p) ["books"; "articles"; "podcasts"; "tweets"] ->
     category h = None) /\
    (~ In (claude.p_location_type p) ["page"; "order"; "time_offset"] ->
     location_type h = None).
Proof.
  intros Hcs Hp.
  destruct (to_highlight_ok p) as (h & Hh & Hfields).
  exists h. split.
  - unfold claude.parse. rewrite Hcs. cbn [mbind Result_bind]. rewrite Hp.
    cbn [mbind Result_bind]. rewrite Hh. reflexivity.
  - destruct Hfields as (H1&H2&H3&H4&H5&H6&H7&H8&H9&Hc&Ht).
    repeat (split; [assumption|]). split.
    + intros Hnot. destruct (category h) as [c|] eqn:E; [|reflexivity].
      exfalso. apply Hnot. rewrite <- (proj1 (Hc c) eq_refl).
      destruct c; cbn; tauto.
    + intros Hnot. destruct (location_type h) as [t|] eqn:E; [|reflexivity].
      exfalso. apply Hnot. rewrite <- (proj1 (Ht t) eq_refl).
      destruct t; cbn; tauto.
Qed.

(** The provider's bare record: every optional field comes out absent. *)
Lemma parse_normalizes_witness :
  exists h : Highlight,
    claude.parse (samples.extracts samples.parsed_bare)
      "small habits compound over time" None = Ok h /\
    title h = None /\ category h = None /\ location h = None /\
    location_type h = None.
Proof.
  destruct (parse_normalizes (samples.extracts samples.parsed_bare)
              "small habits compound over time" None "" samples.parsed_bare
              eq_refl eq_refl)
    as (h & Hh & _ & Htitle & _ & _ & _ & _ & _ & Hloc & _ & _ & _ & Hcat & Hlt).
  exists h. split; [exact Hh|]. split; [now apply Htitle|].
  split; [|split; [now apply Hloc|]].
  - apply Hcat. cbn. intros [H|[H|[H|[H|[]]]]]; discriminate H.
  - apply Hlt. cbn. intros [H|[H|[H|[]]]]; discriminate H.
Defined.

Example parse_bare :
  claude.parse (samples.extracts samples.parsed_bare)
    "small habits compound over time" None
  = Ok samples.untitled.
Proof. reflexivity. Qed.

Example parse_habits :
  claude.parse (samples.extracts samples.parsed_habits)
    "update from atomic habits, small habits compound over time" None
  = Ok {| text := "Small habits compound over time.";
          title := Some "Atomic Habits"; author := None;
          category := Some books; note := None;
          location := Some 42; location_type := Some page |}.
Proof. reflexivity. Qed.

(** ** services/readwise.py *)

(** C4. A highlight whose title is absent or empty makes [submit_highlight]
    raise the title-required error at once: the list of requests sent is
    unchanged, whatever the remote service would have answered. *)
Theorem submit_highlight_requires_title (token : string)
    (post : readwise.HttpRequest -> readwise.HttpOutcome) (h : Highlight)
    (sent : list readwise.HttpRequest) :
  title h = None \/ title h = Some "" ->
  readwise.submit_highlight token post h sent
  = (Raise (ReadwiseError "Title is required for Readwise submission"), sent).
Proof.
  intros [H|H]; unfold readwise.submit_highlight; rewrite H; reflexivity.
Qed.

(** The untitled highlight is refused with nothing sent, although the remote
    service would have accepted it. *)
Lemma submit_highlight_requires_title_witness :
  readwise.submit_highlight "token"
    (samples.answers (readwise.HttpResponse 200 (inr samples.created_123)))
    samples.untitled []
  = (Raise (ReadwiseError "Title is required for Readwise submission"), []).
Proof.
  apply (submit_highlight_requires_title "token"
           (samples.answers (readwise.HttpResponse 200 (inr samples.created_123)))
           samples.untitled []).
  left. reflexivity.
Defined.

(** Every key of the payload. *)
Lemma highlight_data_lookup (h : Highlight) :
  let d := readwise.highlight_data h in
  d !! "text" = Some (PStr (text h)) /\
  d !! "title" = Some (of_opt_str (title h)) /\
  d !! "source_type" = Some (PStr "updates_app") /\
  d !! "author"
    = (if str_truthy (author h) then Some (of_opt_str (author h)) else None) /\
  d !! "category" = (fun c => PStr (Category_value c)) <$> category h /\
  d !! "note"
    = (if str_truthy (note h) then Some (of_opt_str (note h)) else None) /\
  d !! "location" = PInt <$> location h /\
  d !! "location_type"
    = (fun t => PStr (LocationType_value t)) <$> location_type h.
Proof.
  unfold readwise.highlight_data.
  destruct (str_truthy (author h)), (category h), (str_truthy (note h)),
    (location h), (location_type h); repeat split; reflexivity.
Qed.

Lemma created_id_raises (data : pyval) (e : exn) :
  readwise.created_id data = Raise e -> exists kind msg, e = Builtin kind msg.
Proof.
  unfold readwise.created_id.
  destruct (truthy data && _ && _); [|discriminate].
  destruct data as [| | | | |[|[] rest]|]; intros H; inversion H; eauto.
Qed.

(** What [submit_highlight] does with a titled highlight: one request, and a
    result decided by the outcome of that request. *)
Lemma submit_highlight_titled (token : string)
    (post : readwise.HttpRequest -> readwise.HttpOutcome) (h : Highlight)
    (sent : list readwise.HttpRequest) :
  str_truthy (title h) = true ->
  readwise.submit_highlight token post h sent
  = (match post (readwise.submission_request token h) with
     | readwise.TransportError msg =>
         Raise (ReadwiseError ("Failed to submit to Readwise: " +:+ msg))
     | readwise.HttpResponse code body =>
         if (200 <=? code) && (code <=? 299)
         then
           match body with
           | inl msg =>
               Raise (ReadwiseError ("Failed to submit to Readwise: " +:+ msg))
           | inr data =>
               match readwise.created_id data with
               | Ok v => Ok v
               | Raise e =>
                   Raise (ReadwiseError
                            ("Failed to submit to Readwise: " +:+ exn_str e))
               end
           end
         else Raise (ReadwiseError ("Readwise API error: " +:+ pretty code))
     end,
     (sent ++ [readwise.submission_request token h])%list).
Proof.
  intros Ht. unfold readwise.submit_highlight. rewrite Ht. cbn [negb].
  unfold try_exceptM, mbind, M_bind, modify, lift, raise, mret, M_ret.
  destruct (post (readwise.submission_request token h)) as [msg|code body];
    [reflexivity|].
  unfold readwise.raise_for_status. cbn [fst snd].
  destruct ((200 <=? code) && (code <=? 299)); [|reflexivity].
  destruct body as [msg|data]; [reflexivity|].
  destruct (readwise.created_id data) as [v|e] eqn:E; [reflexivity|].
  apply created_id_raises in E as (kind & msg & ->). reflexivity.
Qed.

Lemma str_truthy_true (o : option string) :
  str_truthy o = true -> exists s, o = Some s /\ s <> "".
Proof.
  destruct o as [s|]; [|discriminate]. cbn.
  destruct (String.eqb_spec s ""); [discriminate|]. eauto.
Qed.

Lemma str_truthy_empty (o : option string) :
  o = None \/ o = Some "" -> str_truthy o = false.
Proof. intros [->| ->]; reflexivity. Qed.

(** No value of the payload is [None], and apart from the required [text]
    none is an empty string. *)
Lemma highlight_data_values (h : Highlight) (k : string) (v : pyval) :
  str_truthy (title h) = true ->
  readwise.highlight_data h !! k = Some v ->
  v <> PNone /\ (k <> "text" -> v <> PStr "").
Proof.
  intros Ht Hk. unfold readwise.highlight_data in Hk.
  apply str_truthy_true in Ht as (t & Et & Hne). rewrite Et in Hk.
  destruct (str_truthy (author h)) eqn:Ea;
    [apply str_truthy_true in Ea as (a & Ea & Hnea); rewrite Ea in Hk|];
  (destruct (str_truthy (note h)) eqn:En;
    [apply str_truthy_true in En as (n & En & Hnen); rewrite En in Hk|]);
  destruct (category h) as [c|], (location h) as [l|],
    (location_type h) as [lt|];
  repeat (apply lookup_insert_Some in Hk as [[<- <-]|[? Hk]]);
  try (rewrite lookup_empty in Hk; discriminate Hk);
  cbn [of_opt_str]; (split; [discriminate|]); intros Hkey;
  try congruence; try discriminate;
  try (destruct c; discriminate); try (destruct lt; discriminate).
Qed.

Lemma created_id_first_object (d : gmap string pyval) (rest : list pyval) :
  readwise.created_id (PList (PDict d :: rest)) = Ok (default (PInt 0) (d !! "id")).
Proof. reflexivity. Qed.

Lemma created_id_default (data : pyval) :
  (forall first rest, data <> PList (first :: rest)) ->
  readwise.created_id data = Ok (PInt 0).
Proof.
  intros Hno. unfold readwise.created_id.
  destruct data as [| | | | |[|first rest]|];
    try (exfalso; now apply (Hno first rest));
    destruct (truthy _); reflexivity.
Qed.

Lemma created_id_first_not_object (first : pyval) (rest : list pyval) :
  (forall d, first <> PDict d) ->
  readwise.created_id (PList (first :: rest))
  = Raise (Builtin "AttributeError"
             ("'" +:+ type_name first +:+ "' object has no attribute 'get'")).
Proof.
  intros Hno. destruct first; try reflexivity. exfalso. now apply (Hno d).
Qed.

(** C9, as the code has it. For a highlight with a non-empty title whose
    request is answered with a 2xx status, [submit_highlight] sends one
    request whose payload holds [text], [title] and, of the optional fields,
    only those that are present (an absent one has no key, and no value is
    [None] or, [text] apart, an empty string). When the body decodes to a
    non-empty list whose first element is an object the result is that
    object's [id], or 0 if it has none; when the body decodes to anything
    that is not a non-empty list the result is 0; a first element that is
    not an object, or a body that does not decode, is a submission error. *)
Theorem submit_highlight_success (token : string)
    (post : readwise.HttpRequest -> readwise.HttpOutcome) (h : Highlight)
    (sent : list readwise.HttpRequest) (code : Z) (body : string + pyval) :
  str_truthy (title h) = true ->
  post (readwise.submission_request token h) = readwise.HttpResponse code body ->
  200 <= code <= 299 ->
  let d := readwise.highlight_data h in
  let run := readwise.submit_highlight token post h sent in
  snd run = (sent ++ [readwise.submission_request token h])%list /\
  d !! "text" = Some (PStr (text h)) /\
  d !! "title" = Some (of_opt_str (title h)) /\
  (author h = None -> d !! "author" = None) /\
  (category h = None -> d !! "category" = None) /\
  (note h = None -> d !! "note" = None) /\
  (location h = None -> d !! "location" = None) /\
  (location_type h = None -> d !! "location_type" = None) /\
  (forall k v, d !! k = Some v -> v <> PNone /\ (k <> "text" -> v <> PStr "")) /\
  (forall o rest, body = inr (PList (PDict o :: rest)) ->
     fst run = Ok (default (PInt 0) (o !! "id"))) /\
  (forall data, body = inr data ->
     (forall first rest, data <> PList (first :: rest)) ->
     fst run = Ok (PInt 0)) /\
  (forall first rest, body = inr (PList (first :: rest)) ->
     (forall o, first <> PDict o) ->
     fst run = Raise (ReadwiseError
                        ("Failed to submit to Readwise: '" +:+ type_name first
                         +:+ "' object has no attribute 'get'"))) /\
  (forall msg, body = inl msg ->
     fst run = Raise (ReadwiseError ("Failed to submit to Readwise: " +:+ msg))).
Proof.
  intros Ht Hpost [Hlo Hhi] d run.
  assert (Hrun : run =
    (match body with
     | inl msg => Raise (ReadwiseError ("Failed to submit to Readwise: " +:+ msg))
     | inr data =>
         match readwise.created_id data with
         | Ok v => Ok v
         | Raise e =>
             Raise (ReadwiseError ("Failed to submit to Readwise: " +:+ exn_str e))
         end
     end, (sent ++ [readwise.submission_request token h])%list)).
  { unfold run. rewrite submit_highlight_titled by exact Ht. rewrite Hpost.
    destruct (Z.leb_spec 200 code); [|lia].
    destruct (Z.leb_spec code 299); [|lia]. reflexivity. }
  destruct (highlight_data_lookup h) as (Htext & Htitle & _ & Ha & Hc & Hn & Hl & Hlt).
  fold d in Htext, Htitle, Ha, Hc, Hn, Hl, Hlt.
  rewrite Hrun. cbn [fst snd].
  split; [reflexivity|]. split; [exact Htext|]. split; [exact Htitle|].
  split; [intros E; now rewrite Ha, E|]. split; [intros E; now rewrite Hc, E|].
  split; [intros E; now rewrite Hn, E|]. split; [intros E; now rewrite Hl, E|].
  split; [intros E; now rewrite Hlt, E|].
  split; [intros k v; now apply highlight_data_values|].
  split; [intros o rest ->; now rewrite created_id_first_object|].
  split; [intros data -> Hno; now rewrite created_id_default|].
  split; [|now intros msg ->].
  intros first rest -> Hno. now rewrite created_id_first_not_object.
Qed.

(** The remote service creates highlight 123. *)
Lemma submit_highlight_success_witness :
  readwise.submit_highlight "token"
    (samples.answers (readwise.HttpResponse 200 (inr samples.created_123)))
    samples.habits []
  = (Ok (PInt 123), [readwise.submission_request "token" samples.habits]).
Proof.
  pose proof (submit_highlight_success "token"
                (samples.answers (readwise.HttpResponse 200 (inr samples.created_123)))
                samples.habits [] 200 (inr samples.created_123)
                eq_refl eq_refl ltac:(lia)) as H.
  cbv zeta in H.
  destruct H as (Hsent & _ & _ & _ & _ & _ & _ & _ & _ & Hid & _).
  specialize (Hid _ _ eq_refl).
  destruct (readwise.submit_highlight _ _ _ _) as [r s].
  cbn [fst snd] in Hsent, Hid. now rewrite Hsent, Hid.
Defined.

(** C9, as stated, fails: a 2xx response that is malformed (its first
    element is a number, not an object) or empty (no body to decode) makes
    [submit_highlight] raise instead of returning 0. *)
Lemma submit_highlight_malformed_raises :
  fst (readwise.submit_highlight "token"
         (samples.answers (readwise.HttpResponse 200 (inr (PList [PInt 5]))))
         samples.habits [])
  = Raise (ReadwiseError
             "Failed to submit to Readwise: 'int' object has no attribute 'get'")
  /\
  fst (readwise.submit_highlight "token"
         (samples.answers (readwise.HttpResponse 200 (inr (PList [PInt 5]))))
         samples.habits [])
  <> Ok (PInt 0)
  /\
  fst (readwise.submit_highlight "token"
         (samples.answers
            (readwise.HttpResponse 200
               (inl "Expecting value: line 1 column 1 (char 0)")))
         samples.habits [])
  <> Ok (PInt 0).
Proof. repeat split; discriminate. Qed.

(** C10. For a highlight with a non-empty title the payload sent has no
    [author] key and no [note] key when the field is the empty string, just
    as when it is absent, while a location of 0 is sent as [location: 0];
    only an absent location has no key. *)
Theorem payload_empty_strings_and_zero (token : string)
    (post : readwise.HttpRequest -> readwise.HttpOutcome) (h : Highlight)
    (sent : list readwise.HttpRequest) :
  str_truthy (title h) = true ->
  let d := readwise.highlight_data h in
  snd (readwise.submit_highlight token post h sent)
  = (sent ++ [readwise.submission_request token h])%list /\
  readwise.json (readwise.submission_request token h)
  = PDict {[ "highlights" := PList [PDict d] ]} /\
  (author h = Some "" \/ author h = None -> d !! "author" = None) /\
  (note h = Some "" \/ note h = None -> d !! "note" = None) /\
  (location h = Some 0 -> d !! "location" = Some (PInt 0)) /\
  (forall n, location h = Some n -> d !! "location" = Some (PInt n)) /\
  (location h = None -> d !! "location" = None).
Proof.
  intros Ht d.
  destruct (highlight_data_lookup h) as (_ & _ & _ & Ha & _ & Hn & Hl & _).
  fold d in Ha, Hn, Hl.
  split; [now rewrite submit_highlight_titled|]. split; [reflexivity|].
  split; [intros E; rewrite Ha; apply or_comm in E; now rewrite str_truthy_empty|].
  split; [intros E; rewrite Hn; apply or_comm in E; now rewrite str_truthy_empty|].
  split; [intros E; now rewrite Hl, E|].
  split; [intros n E; now rewrite Hl, E|].
  intros E; now rewrite Hl, E.
Qed.

(** The payload of a highlight with empty author and note and location 0. *)
Lemma payload_empty_strings_and_zero_witness :
  let d := readwise.highlight_data samples.habits_blank in
  d !! "author" = None /\ d !! "note" = None /\ d !! "location" = Some (PInt 0).
Proof.
  destruct (payload_empty_strings_and_zero "token"
              (samples.answers (readwise.HttpResponse 200 (inr samples.created_123)))
              samples.habits_blank [] eq_refl)
    as (_ & _ & Ha & Hn & Hz & _).
  split; [apply Ha; now left|]. split; [apply Hn; now left|]. now apply Hz.
Defined.

Example payload_habits_blank :
  readwise.highlight_data samples.habits_blank
  = <["location" := PInt 0]>
      (<["source_type" := PStr "updates_app"]>
         (<["title" := PStr "Atomic Habits"]>
            (<["text" := PStr "Small habits compound over time."]> ∅))).
Proof. reflexivity. Qed.

(** ** api.py: the pipeline *)

Lemma get_recent_raises (hours limit : Z) (now : datetime) (st : state.State)
    (e : exn) :
  state.get_recent hours limit now st = Raise e ->
  exists kind msg, e = Builtin kind msg.
Proof.
  unfold state.get_recent.
  destruct (timedelta_hours hours) as [delta|e1] eqn:E1; cbn [mbind Result_bind].
  - destruct (datetime_sub now delta) as [cutoff|e2] eqn:E2;
      cbn [mbind Result_bind]; intros H; [discriminate H|].
    unfold datetime_sub in E2. destruct (_ && _) in E2; inversion E2.
    inversion H. subst. eauto.
  - unfold timedelta_hours in E1. destruct (_ && _) in E1; inversion E1.
    intros H. inversion H. subst. eauto.
Qed.

Lemma transcribe_raises convert audio_bytes filename (e : exn) :
  elevenlabs.transcribe convert audio_bytes filename = Raise e ->
  exists msg, e = TranscriptionError msg.
Proof.
  unfold elevenlabs.transcribe.
  destruct (convert audio_bytes filename) as [msg|result]; cbn;
    intros H; inversion H; eauto.
Qed.

Lemma parse_raises messages_parse transcript context (e : exn) :
  claude.parse messages_parse transcript context = Raise e ->
  exists msg, e = ParsingError msg.
Proof.
  unfold claude.parse, try_except.
  destruct (_ ≫= _) as [h|e']; intros H; inversion H; eauto.
Qed.

Lemma submit_highlight_raises token post h sent (e : exn) :
  fst (readwise.submit_highlight token post h sent) = Raise e ->
  exists msg, e = ReadwiseError msg.
Proof.
  destruct (str_truthy (title h)) eqn:Ht.
  - rewrite submit_highlight_titled by exact Ht. cbn [fst].
    destruct (post _) as [msg|code [msg|data]];
      repeat match goal with
             | |- context [if ?b then _ else _] => destruct b
             | |- context [match readwise.created_id ?d with _ => _ end] =>
                 destruct (readwise.created_id d)
             end;
      intros H; inversion H; eauto.
  - unfold readwise.submit_highlight. rewrite Ht. cbn.
    intros H; inversion H; eauto.
Qed.

Section Pipeline.
Variable convert : list Byte.byte -> string -> string + elevenlabs.SttResult.
Variable messages_parse : string -> string + option claude.ParsedHighlight.
Variable token : string.
Variable post : readwise.HttpRequest -> readwise.HttpOutcome.
Variable lax : pyval -> option Z.

(** [process_audio], stage by stage. *)
Lemma process_audio_eq (audio : api.UploadFile) (now_recent now_record : datetime)
    (w : api.World) :
  api.process_audio convert messages_parse token post lax audio
    now_recent now_record w
  = match elevenlabs.transcribe convert (api.content audio)
            (str_or (api.filename audio) "audio.m4a") with
    | Raise e =>
        (Raise (HTTPException 500 ("Transcription failed: " +:+ exn_str e)), w)
    | Ok (transcript, _) =>
    match state.get_recent 2 10 now_recent (api.globals w) with
    | Raise e => (Raise e, w)
    | Ok recent =>
    match claude.parse messages_parse transcript
            (Some (api.extraction_context
                     (state.current_context (api.globals w)) recent)) with
    | Raise e =>
        (Raise (HTTPException 500 ("Parsing failed: " +:+ exn_str e)), w)
    | Ok h =>
    match readwise.submit_highlight token post h (api.sent w) with
    | (Raise e, sent') =>
        (Raise (HTTPException 500
                  ("Readwise submission failed: " +:+ exn_str e)),
         {| api.globals := api.globals w; api.sent := sent' |})
    | (Ok id, sent') =>
    match validate_optional_int lax id with
    | Raise e =>
        (Raise e, {| api.globals := api.globals w; api.sent := sent' |})
    | Ok rid =>
        (Ok {| pr_success := true; pr_transcript := transcript;
               pr_highlight := h; pr_readwise_id := rid |},
         {| api.globals :=
              {| state.submissions :=
                   state.submissions (api.globals w)
                   ++ [{| transcript := transcript; highlight := h;
                          readwise_id := rid; created_at := now_record |}];
                 state.current_context := state.current_context (api.globals w);
                 state.context_set_at := state.context_set_at (api.globals w) |};
            api.sent := sent' |})
    end end end end end.
Proof.
  unfold api.process_audio, try_exceptM.
  unfold mbind at 1. unfold M_bind at 1. unfold lift at 1.
  destruct (elevenlabs.transcribe _ _ _) as [[transcript dur]|e] eqn:Et.
  2:{ apply transcribe_raises in Et as (m & ->). reflexivity. }
  unfold mbind at 1. unfold M_bind at 1. unfold get at 1.
  cbn [state.get_context].
  unfold mbind at 1. unfold M_bind at 1. unfold lift at 1.
  destruct (state.get_recent 2 10 now_recent (api.globals w)) as [recent|e] eqn:Er.
  2:{ apply get_recent_raises in Er as (k & m & ->). reflexivity. }
  unfold mbind at 1. unfold M_bind at 1. unfold lift at 1.
  destruct (claude.parse _ _ _) as [h|e] eqn:Ep.
  2:{ apply parse_raises in Ep as (m & ->). reflexivity. }
  unfold mbind at 1. unfold M_bind at 1. unfold api.on_network at 1.
  destruct (readwise.submit_highlight token post h (api.sent w))
    as [[id|e] sent'] eqn:Es.
  2:{ pose proof (submit_highlight_raises token post h (api.sent w) e) as Hr.
      rewrite Es in Hr. destruct (Hr eq_refl) as (m & ->). reflexivity. }
  unfold mbind at 1. unfold M_bind at 1. unfold api.on_globals at 1.
  unfold state.add_submission.
  unfold mbind at 1. unfold M_bind at 1. unfold lift at 1.
  cbn [api.globals api.sent].
  destruct (validate_optional_int lax id) as [rid|e] eqn:Ev.
  2:{ unfold validate_optional_int in Ev.
      destruct id; try discriminate Ev;
        destruct (lax _); inversion Ev; reflexivity. }
  reflexivity.
Qed.

(** A run that stopped early: no quadruple of stage results exists, the
    globals are untouched and the result is an exception. *)
Ltac stopped_early :=
  right; split; [|split; [reflexivity | eauto]].

(** Every run either goes through all its stages, appends the record and
    answers with it, or stops at the first stage that fails and leaves the
    globals of [state] as they were. *)
Lemma process_audio_cases (audio : api.UploadFile)
    (now_recent now_record : datetime) (w : api.World) :
  let run := api.process_audio convert messages_parse token post lax audio
               now_recent now_record w in
  let stages transcript h id rid :=
    api.transcription_succeeds convert audio transcript /\
    api.extraction_succeeds messages_parse w now_recent transcript h /\
    api.submission_succeeds token post w h id /\
    validate_optional_int lax id = Ok rid in
  (exists transcript h id rid,
     stages transcript h id rid /\
     api.globals (snd run)
     = {| state.submissions :=
            state.submissions (api.globals w)
            ++ [{| transcript := transcript; highlight := h;
                   readwise_id := rid; created_at := now_record |}];
          state.current_context := state.current_context (api.globals w);
          state.context_set_at := state.context_set_at (api.globals w) |} /\
     fst run = Ok {| pr_success := true; pr_transcript := transcript;
                     pr_highlight := h; pr_readwise_id := rid |})
  \/
  ((forall transcript h id rid, ~ stages transcript h id rid) /\
   api.globals (snd run) = api.globals w /\
   exists e, fst run = Raise e).
Proof.
  intros run stages. unfold run. rewrite process_audio_eq.
  unfold stages, api.transcription_succeeds, api.extraction_succeeds,
    api.submission_succeeds.
  destruct (elevenlabs.transcribe _ _ _) as [[transcript dur]|e] eqn:Et.
  2:{ stopped_early.
      intros t h id rid ((d & Ht) & _). discriminate Ht. }
  destruct (state.get_recent 2 10 now_recent (api.globals w)) as [recent|e] eqn:Er.
  2:{ stopped_early.
      intros t h id rid (_ & (r & Hr & _) & _). discriminate Hr. }
  destruct (claude.parse _ _ _) as [h|e] eqn:Ep.
  2:{ stopped_early.
      intros t h id rid ((d & Ht) & (r & Hr & Hp) & _).
      injection Ht as <- _. injection Hr as <-. congruence. }
  destruct (readwise.submit_highlight token post h (api.sent w))
    as [[id|e] sent'] eqn:Es.
  2:{ stopped_early.
      intros t h' id rid ((d & Ht) & (r & Hr & Hp) & Hs & _).
      injection Ht as <- _. injection Hr as <-.
      assert (h' = h) as -> by congruence.
      rewrite Es in Hs. discriminate Hs. }
  destruct (validate_optional_int lax id) as [rid|e] eqn:Ev.
  2:{ stopped_early.
      intros t h' id' rid ((d & Ht) & (r & Hr & Hp) & Hs & Hv).
      injection Ht as <- _. injection Hr as <-.
      assert (h' = h) as -> by congruence.
      rewrite Es in Hs. injection Hs as <-. congruence. }
  left. exists transcript, h, id, rid. cbn [fst snd api.globals].
  split; [|split; reflexivity].
  split; [eauto|]. split; [eauto|]. split; [|exact Ev].
  now rewrite Es.
Qed.

(** C5, as the code has it. A run of [process_audio] appends a record to
    the store if and only if transcription, extraction and submission all
    succeed and the identifier submission returned passes the validation of
    the record's [int | None] field; the record appended is then the one
    made of the transcript, the highlight and the validated identifier. In
    every other run, whichever stage failed, the globals of [state] are left
    exactly as they were. An integer identifier and [None] always pass. *)
Theorem process_audio_records (audio : api.UploadFile)
    (now_recent now_record : datetime) (w : api.World) :
  let run := api.process_audio convert messages_parse token post lax audio
               now_recent now_record w in
  let stages transcript h id rid :=
    api.transcription_succeeds convert audio transcript /\
    api.extraction_succeeds messages_parse w now_recent transcript h /\
    api.submission_succeeds token post w h id /\
    validate_optional_int lax id = Ok rid in
  ((exists record,
      state.submissions (api.globals (snd run))
      = state.submissions (api.globals w) ++ [record])
   <-> exists transcript h id rid, stages transcript h id rid) /\
  (forall transcript h id rid,
     stages transcript h id rid ->
     state.submissions (api.globals (snd run))
     = state.submissions (api.globals w)
       ++ [{| transcript := transcript; highlight := h;
              readwise_id := rid; created_at := now_record |}]) /\
  ((forall transcript h id rid, ~ stages transcript h id rid) ->
   api.globals (snd run) = api.globals w) /\
  (forall n, validate_optional_int lax (PInt n) = Ok (Some n)) /\
  validate_optional_int lax PNone = Ok None.
Proof.
  intros run stages.
  destruct (process_audio_cases audio now_recent now_record w)
    as [(t & h & id & rid & Hst & Hg & Hr) | (Hno & Hg & e & Hr)];
    fold run in Hg, Hr.
  - split; [split; [eauto|] |].
    + intros _. rewrite Hg. cbn. eauto.
    + split; [|split; [|split; reflexivity]].
      * intros t' h' id' rid' (Ht' & He' & Hs' & Hv').
        destruct Hst as (Ht & He & Hs & Hv).
        destruct Ht as (d & Ht), Ht' as (d' & Ht').
        assert (t' = t) as -> by congruence.
        destruct He as (r & Hr1 & Hp), He' as (r' & Hr1' & Hp').
        assert (r' = r) as -> by congruence.
        assert (h' = h) as -> by congruence.
        unfold api.submission_succeeds in Hs, Hs'.
        assert (id' = id) as -> by congruence.
        assert (rid' = rid) as -> by congruence.
        rewrite Hg. reflexivity.
      * intros Hnone. exfalso. now apply (Hnone t h id rid).
  - split; [split|].
    + intros (record & Hrec). rewrite Hg in Hrec.
      apply (f_equal (@length _)) in Hrec. rewrite length_app in Hrec.
      cbn in Hrec. lia.
    + intros (t & h & id & rid & Hst). exfalso. now apply (Hno t h id rid).
    + split; [|split; [|split; reflexivity]].
      * intros t h id rid Hst. exfalso. now apply (Hno t h id rid).
      * intros _. exact Hg.
Qed.

(** C2, as the code has it. When transcription and extraction succeed and
    submission fails with message [msg], the run ends in an HTTP 500 error
    whose detail names the failing stage and repeats [msg]; the error
    carries neither the transcript nor the highlight nor an identifier, and
    the store is left as it was. *)
Theorem process_audio_submission_failure (audio : api.UploadFile)
    (now_recent now_record : datetime) (w : api.World)
    (transcript : string) (h : Highlight) (msg : string) :
  api.transcription_succeeds convert audio transcript ->
  api.extraction_succeeds messages_parse w now_recent transcript h ->
  api.submission_fails token post w h msg ->
  let run := api.process_audio convert messages_parse token post lax audio
               now_recent now_record w in
  fst run = Raise (HTTPException 500 ("Readwise submission failed: " +:+ msg)) /\
  api.globals (snd run) = api.globals w.
Proof.
  intros (d & Ht) (r & Hr & Hp) Hs run. unfold run.
  rewrite process_audio_eq, Ht, Hr, Hp.
  unfold api.submission_fails in Hs.
  destruct (readwise.submit_highlight token post h (api.sent w)) as [res sent'].
  cbn [fst] in Hs. subst res. split; reflexivity.
Qed.
End Pipeline.

(** The spec's first end-to-end scenario: the remote service assigns 123 and
    the store gains one record with that transcript, highlight and id. *)
Example process_audio_end_to_end :
  api.process_audio (samples.hears samples.spoken)
    (samples.extracts samples.parsed_habits) "token"
    (samples.answers (readwise.HttpResponse 200 (inr samples.created_123)))
    samples.no_conversion samples.recording samples.noon samples.noon
    samples.fresh
  = (Ok {| pr_success := true; pr_transcript := samples.spoken;
           pr_highlight := samples.habits_page_42; pr_readwise_id := Some 123 |},
     {| api.globals :=
          {| state.submissions :=
               [{| transcript := samples.spoken;
                   highlight := samples.habits_page_42;
                   readwise_id := Some 123; created_at := samples.noon |}];
             state.current_context := None;
             state.context_set_at := None |};
        api.sent := [readwise.submission_request "token" samples.habits_page_42] |}).
Proof. vm_compute. reflexivity. Qed.

(** The spec's second end-to-end scenario: extraction yields no title. *)
Lemma process_audio_submission_failure_witness :
  let run :=
    api.process_audio (samples.hears samples.spoken)
      (samples.extracts samples.parsed_bare) "token"
      (samples.answers (readwise.HttpResponse 200 (inr samples.created_123)))
      samples.no_conversion samples.recording samples.noon samples.noon
      samples.fresh in
  fst run
  = Raise (HTTPException 500
             ("Readwise submission failed: "
              +:+ "Title is required for Readwise submission")) /\
  api.globals (snd run) = api.globals samples.fresh.
Proof.
  apply (process_audio_submission_failure (samples.hears samples.spoken)
           (samples.extracts samples.parsed_bare) "token"
           (samples.answers (readwise.HttpResponse 200 (inr samples.created_123)))
           samples.no_conversion samples.recording samples.noon samples.noon
           samples.fresh samples.spoken samples.untitled
           "Title is required for Readwise submission").
  - exists None. reflexivity.
  - exists []. split; reflexivity.
  - reflexivity.
Defined.

(** C2, as stated, fails. In the spec's second scenario (extraction yields
    no title, so submission fails on the title guard) transcription and
    extraction have succeeded, yet the run does not end in a response
    carrying the transcript and the highlight with no identifier: it ends in
    the HTTP 500 error, and in the very same error whatever was said. *)
Lemma process_audio_failure_drops_work :
  let run said :=
    api.process_audio (samples.hears said)
      (samples.extracts samples.parsed_bare) "token"
      (samples.answers (readwise.HttpResponse 200 (inr samples.created_123)))
      samples.no_conversion samples.recording samples.noon samples.noon
      samples.fresh in
  api.transcription_succeeds (samples.hears samples.spoken) samples.recording
    samples.spoken /\
  api.extraction_succeeds (samples.extracts samples.parsed_bare) samples.fresh
    samples.noon samples.spoken samples.untitled /\
  api.submission_fails "token"
    (samples.answers (readwise.HttpResponse 200 (inr samples.created_123)))
    samples.fresh samples.untitled "Title is required for Readwise submission" /\
  ~ (exists response,
       fst (run samples.spoken) = Ok response /\
       pr_transcript response = samples.spoken /\
       pr_highlight response = samples.untitled /\
       pr_readwise_id response = None) /\
  fst (run samples.spoken)
  = Raise (HTTPException 500
             "Readwise submission failed: Title is required for Readwise submission") /\
  fst (run "something else entirely") = fst (run samples.spoken).
Proof.
  intros run.
  assert (Hrun : fst (run samples.spoken)
                 = Raise (HTTPException 500
                            "Readwise submission failed: Title is required for Readwise submission"))
    by (vm_compute; reflexivity).
  split; [exists None; reflexivity|].
  split; [exists []; split; reflexivity|].
  split; [reflexivity|].
  split; [|split; [exact Hrun | vm_compute; reflexivity]].
  intros (response & Hok & _). rewrite Hrun in Hok. discriminate Hok.
Qed.

(** C5, as stated, fails. Transcription, extraction and submission all
    succeed, but the identifier the remote service returned is the string
    "x": the record cannot be built, and the store stays as it was. *)
Lemma process_audio_unrecorded_success :
  let post := samples.answers (readwise.HttpResponse 200 (inr samples.created_x)) in
  let run :=
    api.process_audio (samples.hears samples.spoken)
      (samples.extracts samples.parsed_habits) "token" post
      samples.no_conversion samples.recording samples.noon samples.noon
      samples.fresh in
  api.transcription_succeeds (samples.hears samples.spoken) samples.recording
    samples.spoken /\
  api.extraction_succeeds (samples.extracts samples.parsed_habits) samples.fresh
    samples.noon samples.spoken samples.habits_page_42 /\
  api.submission_succeeds "token" post samples.fresh samples.habits_page_42
    (PStr "x") /\
  api.globals (snd run) = api.globals samples.fresh /\
  state.submissions (api.globals (snd run)) = [] /\
  (exists msg, fst run = Raise (Builtin "ValidationError" msg)).
Proof.
  intros post run.
  split; [exists None; reflexivity|].
  split; [exists []; split; reflexivity|].
  split; [reflexivity|]. split; [reflexivity|]. split; [reflexivity|].
  eexists. vm_compute. reflexivity.
Qed.

(** ** api.py: the context handed to the extraction step *)

(** What holds of the payload for every list of records: it carries the
    current context as it is, and one entry per recent record, in order, with
    the record's title as stored and the first 100 characters of its text. *)
Lemma extraction_context_entries (current : option string)
    (recent : list SubmissionRecord) :
  let context := api.extraction_context current recent in
  claude.current context = current /\
  length (claude.recent context) = length recent /\
  (forall i s, recent !! i = Some s ->
     exists r, claude.recent context !! i = Some r /\
               r !! "title" = Some (title (highlight s)) /\
               r !! "text" = Some (Some (str_take 100 (text (highlight s))))).
Proof.
  cbn. split; [reflexivity|]. split; [apply length_map|].
  intros i s Hi. eexists. split.
  - rewrite list_lookup_fmap, Hi. reflexivity.
  - split; reflexivity.
Qed.

Lemma str_take_length (n : nat) (s : string) :
  (String.length (str_take n s) <= n)%nat.
Proof.
  revert s. induction n as [|n IH]; intros [|c s]; cbn; try lia.
  specialize (IH s). lia.
Qed.

(** An empty store gives an empty recent list and no current context. *)
Lemma extraction_context_initial (now : datetime) :
  2 * us_per_hour <= now <= datetime_max ->
  state.get_recent 2 10 now state.initial = Ok [] /\
  state.get_context state.initial = (None, None) /\
  api.extraction_context None []
  = {| claude.current := None; claude.recent := [] |}.
Proof.
  intros Hnow. split; [|split; reflexivity].
  rewrite get_recent_eq; [reflexivity | vm_compute; split; discriminate |].
  unfold datetime_max, us_per_hour, us_per_second in *. lia.
Qed.

(** For a record with a title the line of the prompt shows that title. *)
Lemma recent_line_titled (t : string) (s : SubmissionRecord) :
  title (highlight s) = Some t ->
  forall r, claude.recent (api.extraction_context None [s]) = [r] ->
  claude.recent_line r
  = Ok (String "010" "- [" +:+ t +:+ "] "
        +:+ str_take 100 (str_take 100 (text (highlight s)))).
Proof.
  intros Ht r Hr. cbn in Hr. injection Hr as <-.
  unfold claude.recent_line. rewrite Ht. reflexivity.
Qed.

(** A store put together by hand, holding a record without a title, which
    no route ever stores: the entry built for it has the key [title] with
    the value [None], so the default of [r.get('title', 'Unknown')] does not
    apply and the line reads [- [None] ...], where [format_recent_context]
    shows the same record as [- [Unknown] ...]. *)
Example extraction_context_title_none :
  let w := {| api.globals := samples.untitled_history; api.sent := [] |} in
  let s := samples.record_at samples.untitled (samples.noon - us_per_hour) in
  let entry : gmap string (option string) :=
    <["text" := Some "Small habits compound over time."]> (<["title" := None]> ∅) in
  let context := {| claude.current := None; claude.recent := [entry] |} in
  let message :=
    "Transcript: " +:+ samples.spoken +:+ String "010" (String "010" "Context:")
    +:+ String "010" "Recent highlights:"
    +:+ String "010" "- [None] Small habits compound over time." in
  state.get_recent 2 10 samples.noon (api.globals w) = Ok [s] /\
  api.extraction_context (state.current_context (api.globals w)) [s] = context /\
  entry !! "title" = Some None /\
  entry !! "title" <> Some (Some "Unknown") /\
  claude.context_str (Some context)
  = Ok (String "010" "Recent highlights:"
        +:+ String "010" "- [None] Small habits compound over time.") /\
  fst (api.process_audio (samples.hears samples.spoken)
         (samples.expects message samples.parsed_habits) "token"
         (samples.answers (readwise.HttpResponse 200 (inr samples.created_123)))
         samples.no_conversion samples.recording samples.noon samples.noon w)
  = Ok {| pr_success := true; pr_transcript := samples.spoken;
          pr_highlight := samples.habits_page_42; pr_readwise_id := Some 123 |} /\
  state.format_recent_context [s]
  = "Recent updates:" +:+ String "010"
      "- [Unknown] Small habits compound over time. (11:00)".
Proof.
  intros w s entry context message.
  split; [reflexivity|]. split; [reflexivity|]. split; [reflexivity|].
  split; [discriminate|]. split; [reflexivity|].
  split; vm_compute; reflexivity.
Qed.


(** * Further properties of the code *)

(** ** state.py: recording and the recent view together *)

Section SortOrder.
Context {A : Type} (key : A -> Z).

(** A record newer than all the others, appended last, sorts first. *)
Lemma sort_desc_snoc_newest (x : A) (l : list A) :
  Forall (fun y => key y < key x) l ->
  sort_desc key (l ++ [x]) = x :: sort_desc key l.
Proof.
  induction 1 as [|y l Hy Hl IH]; [reflexivity|].
  cbn [app sort_desc]. rewrite IH. cbn [insert_desc].
  destruct (Z.leb_spec (key x) (key y)); [lia | reflexivity].
Qed.

(** A record older than all the others goes last. *)
Lemma insert_desc_oldest (x : A) (l : list A) :
  Forall (fun y => key x < key y) l -> insert_desc key x l = l ++ [x].
Proof.
  induction 1 as [|y l Hy Hl IH]; [reflexivity|].
  cbn [insert_desc app].
  destruct (Z.leb_spec (key y) (key x)); [lia | now rewrite IH].
Qed.

(** On strictly increasing keys the sort is a reversal. *)
Lemma sort_desc_ascending (l : list A) :
  StronglySorted (fun a b => key a < key b) l -> sort_desc key l = rev l.
Proof.
  induction 1 as [|x l Hl IH Hx]; [reflexivity|].
  cbn [sort_desc rev]. rewrite IH. apply insert_desc_oldest.
  apply List.Forall_forall. intros y Hy. apply in_rev in Hy.
  revert y Hy. now apply List.Forall_forall.
Qed.

Lemma filter_ascending (p : A -> bool) (l : list A) :
  StronglySorted (fun a b => key a < key b) l ->
  StronglySorted (fun a b => key a < key b) (List.filter p l).
Proof.
  induction 1 as [|x l Hl IH Hx]; [constructor|].
  cbn [List.filter]. destruct (p x); [|exact IH].
  constructor; [exact IH|].
  apply List.Forall_forall. intros y Hy. apply filter_In in Hy as [Hy _].
  revert y Hy. now apply List.Forall_forall.
Qed.
End SortOrder.

Lemma add_submission_ok (lax : pyval -> option Z) (said : string)
    (h : Highlight) (id : pyval) (rid : option Z) (t : datetime)
    (st : state.State) :
  validate_optional_int lax id = Ok rid ->
  state.add_submission lax said h id t st
  = (Ok {| transcript := said; highlight := h; readwise_id := rid;
           created_at := t |},
     {| state.submissions :=
          state.submissions st
          ++ [{| transcript := said; highlight := h; readwise_id := rid;
                 created_at := t |}];
        state.current_context := state.current_context st;
        state.context_set_at := state.context_set_at st |}).
Proof. intros Hv. unfold state.add_submission. rewrite Hv. reflexivity. Qed.

Lemma add_submission_raise (lax : pyval -> option Z) (said : string)
    (h : Highlight) (id : pyval) (e : exn) (t : datetime) (st : state.State) :
  validate_optional_int lax id = Raise e ->
  state.add_submission lax said h id t st = (Raise e, st).
Proof. intros Hv. unfold state.add_submission. rewrite Hv. reflexivity. Qed.

(** A record stored at a moment later than every record already there is
    the first one [get_recent] returns afterwards, as long as it is still
    inside the window and at least one record is asked for. *)
Theorem add_submission_then_get_recent (lax : pyval -> option Z)
    (said : string) (h : Highlight) (id : pyval) (rid : option Z)
    (t now hours limit : Z) (st : state.State) :
  validate_optional_int lax id = Ok rid ->
  Forall (fun s => created_at s < t) (state.submissions st) ->
  -999999999 <= hours * 3600 / 86400 <= 999999999 ->
  0 <= now - hours * us_per_hour <= datetime_max ->
  now - hours * us_per_hour <= t ->
  1 <= limit ->
  exists rest,
    state.get_recent hours limit now
      (snd (state.add_submission lax said h id t st))
    = Ok ({| transcript := said; highlight := h; readwise_id := rid;
             created_at := t |} :: rest).
Proof.
  intros Hv Hold Hh Hc Hin Hl.
  rewrite (add_submission_ok _ _ _ _ _ _ _ Hv). cbn [snd].
  rewrite get_recent_eq by assumption. cbn [state.submissions].
  rewrite List.filter_app. cbn [List.filter created_at].
  destruct (Z.leb_spec (now - hours * us_per_hour) t) as [_|]; [|lia].
  rewrite sort_desc_snoc_newest.
  - rewrite slice_to_take by lia.
    destruct (Z.to_nat limit) as [|n] eqn:En; [lia|].
    cbn [take]. eauto.
  - apply List.Forall_forall. intros y Hy. apply filter_In in Hy as [Hy _].
    cbn [created_at]. revert y Hy. now apply List.Forall_forall.
Qed.

(** The record just stored at [noon] heads the recent view a minute later. *)
Lemma add_submission_then_get_recent_witness :
  exists rest,
    state.get_recent 2 10 (samples.noon + 60 * us_per_second)
      (snd (state.add_submission samples.no_conversion samples.spoken
              samples.habits (PInt 7) samples.noon samples.history))
    = Ok ({| transcript := samples.spoken; highlight := samples.habits;
             readwise_id := Some 7; created_at := samples.noon |} :: rest).
Proof.
  apply (add_submission_then_get_recent samples.no_conversion samples.spoken
           samples.habits (PInt 7) (Some 7) samples.noon
           (samples.noon + 60 * us_per_second) 2 10 samples.history).
  - reflexivity.
  - repeat constructor.
  - vm_compute. split; discriminate.
  - vm_compute. split; discriminate.
  - vm_compute. discriminate.
  - lia.
Defined.

(** When every record was stored at a later moment than the one before,
    the recent view is the window read backwards and cut to [limit]. *)
Theorem get_recent_chronological (st : state.State) (now hours limit : Z) :
  StronglySorted (fun a b => created_at a < created_at b) (state.submissions st) ->
  -999999999 <= hours * 3600 / 86400 <= 999999999 ->
  0 <= now - hours * us_per_hour <= datetime_max ->
  0 <= limit ->
  state.get_recent hours limit now st
  = Ok (take (Z.to_nat limit)
          (rev (List.filter (fun s => now - hours * us_per_hour <=? created_at s)
                            (state.submissions st)))).
Proof.
  intros Hsorted Hh Hc Hl.
  rewrite get_recent_eq by assumption. rewrite slice_to_take by exact Hl.
  rewrite sort_desc_ascending; [reflexivity|].
  now apply filter_ascending.
Qed.

Lemma get_recent_chronological_witness :
  state.get_recent 2 2 samples.noon
    {| state.submissions :=
         [ samples.record_at samples.habits (samples.noon - 3 * us_per_hour);
           samples.record_at samples.untitled (samples.noon - us_per_hour);
           samples.record_at samples.habits samples.noon ];
       state.current_context := None; state.context_set_at := None |}
  = Ok [ samples.record_at samples.habits samples.noon;
         samples.record_at samples.untitled (samples.noon - us_per_hour) ].
Proof.
  rewrite get_recent_chronological.
  - reflexivity.
  - cbn [state.submissions].
    repeat (constructor; [|repeat constructor; vm_compute; reflexivity]).
    constructor.
  - vm_compute. split; discriminate.
  - vm_compute. split; discriminate.
  - lia.
Defined.

(** Storing a record at a moment later than every record already there
    keeps the store in the order of the clock, whatever the identifier. *)
Theorem add_submission_keeps_chronological (lax : pyval -> option Z)
    (said : string) (h : Highlight) (id : pyval) (t : datetime)
    (st : state.State) :
  StronglySorted (fun a b => created_at a < created_at b) (state.submissions st) ->
  Forall (fun s => created_at s < t) (state.submissions st) ->
  StronglySorted (fun a b => created_at a < created_at b)
    (state.submissions (snd (state.add_submission lax said h id t st))).
Proof.
  intros Hsorted Hold.
  destruct (validate_optional_int lax id) as [rid|e] eqn:Hv.
  - rewrite (add_submission_ok _ _ _ _ _ _ _ Hv). cbn [snd state.submissions].
    induction Hsorted as [|x l Hl IH Hx]; [repeat constructor|].
    apply Forall_cons in Hold as [Hxt Hold]. cbn [app].
    constructor; [now apply IH|].
    apply Forall_app. split; [exact Hx|]. now repeat constructor.
  - now rewrite (add_submission_raise _ _ _ _ _ _ _ Hv).
Qed.

Lemma add_submission_keeps_chronological_witness :
  StronglySorted (fun a b => created_at a < created_at b)
    (state.submissions
       (snd (state.add_submission samples.no_conversion samples.spoken
               samples.habits (PInt 7) samples.noon
               {| state.submissions :=
                    [samples.record_at samples.habits (samples.noon - us_per_hour)];
                  state.current_context := None;
                  state.context_set_at := None |}))).
Proof.
  apply add_submission_keeps_chronological.
  - repeat constructor.
  - repeat constructor.
Defined.

(** Records with the same timestamp come back in the order they were
    stored: asking for at least as many records as the store holds, the
    records of the view with a given [created_at] are those of the store
    inside the window, in the store's order. *)
Theorem get_recent_keeps_insertion_order (st : state.State)
    (now hours limit k : Z) :
  -999999999 <= hours * 3600 / 86400 <= 999999999 ->
  0 <= now - hours * us_per_hour <= datetime_max ->
  Z.of_nat (length (state.submissions st)) <= limit ->
  exists r,
    state.get_recent hours limit now st = Ok r /\
    List.filter (fun s => created_at s =? k) r
    = List.filter (fun s => created_at s =? k)
        (List.filter (fun s => now - hours * us_per_hour <=? created_at s)
                     (state.submissions st)).
Proof.
  intros Hh Hc Hl. eexists. split.
  - rewrite get_recent_eq by assumption. rewrite slice_to_take by lia.
    reflexivity.
  - rewrite take_ge.
    + apply (sort_desc_stable created_at).
    + rewrite (Permutation_length (sort_desc_perm created_at _)).
      pose proof (List.filter_length_le
                    (fun s => now - hours * us_per_hour <=? created_at s)
                    (state.submissions st)).
      lia.
Qed.

Lemma get_recent_keeps_insertion_order_witness :
  state.get_recent 2 10 samples.noon
    {| state.submissions :=
         [ samples.record_at samples.habits samples.noon;
           samples.record_at samples.untitled samples.noon ];
       state.current_context := None; state.context_set_at := None |}
  = Ok [ samples.record_at samples.habits samples.noon;
         samples.record_at samples.untitled samples.noon ].
Proof.
  destruct (get_recent_keeps_insertion_order
              {| state.submissions :=
                   [ samples.record_at samples.habits samples.noon;
                     samples.record_at samples.untitled samples.noon ];
                 state.current_context := None; state.context_set_at := None |}
              samples.noon 2 10 samples.noon)
    as (r & Hr & _).
  - vm_compute. split; discriminate.
  - vm_compute. split; discriminate.
  - vm_compute. discriminate.
  - reflexivity.
Defined.

(** A negative [limit] does not bound the view: it drops the oldest
    [-limit] records of the window and returns all the others. *)
Theorem get_recent_negative_limit_drops_oldest (st : state.State)
    (now hours limit : Z) :
  -999999999 <= hours * 3600 / 86400 <= 999999999 ->
  0 <= now - hours * us_per_hour <= datetime_max ->
  limit < 0 ->
  let window :=
    sort_desc created_at
      (List.filter (fun s => now - hours * us_per_hour <=? created_at s)
                   (state.submissions st)) in
  exists r dropped,
    state.get_recent hours limit now st = Ok r /\
    (r ++ dropped = window)%list /\
    length dropped = Nat.min (Z.to_nat (- limit)) (length window).
Proof.
  intros Hh Hc Hl window.
  set (n := Z.to_nat (Z.of_nat (length window) + limit)).
  exists (take n window), (drop n window).
  split; [|split].
  - rewrite get_recent_eq by assumption. unfold slice_to.
    destruct (Z.leb_spec 0 limit); [lia | reflexivity].
  - apply take_drop.
  - rewrite length_drop. unfold n. lia.
Qed.

Lemma get_recent_negative_limit_drops_oldest_witness :
  exists r dropped,
    state.get_recent 2 (-1) samples.noon samples.history = Ok r /\
    (r ++ dropped
     = sort_desc created_at
         (List.filter (fun s => samples.noon - 2 * us_per_hour <=? created_at s)
                      (state.submissions samples.history)))%list /\
    length dropped = 1%nat.
Proof.
  destruct (get_recent_negative_limit_drops_oldest samples.history
              samples.noon 2 (-1))
    as (r & dropped & Hr & Happ & Hlen).
  - vm_compute. split; discriminate.
  - vm_compute. split; discriminate.
  - lia.
  - exists r, dropped. split; [exact Hr|]. split; [exact Happ|].
    rewrite Hlen. reflexivity.
Defined.

(** [get_recent] fails exactly when the cutoff is not a datetime: the
    window is longer than a [timedelta] can be, or it starts before year 1
    or after year 9999. The failure is an [OverflowError], and it does not
    depend on what is stored. *)
Theorem get_recent_fails_iff (st : state.State) (now hours limit : Z) :
  ((exists r, state.get_recent hours limit now st = Ok r)
   <-> (-999999999 <= hours * 3600 / 86400 <= 999999999 /\
        0 <= now - hours * us_per_hour <= datetime_max)) /\
  (forall e, state.get_recent hours limit now st = Raise e ->
     (exists msg, e = Builtin "OverflowError" msg) /\
     forall st', state.get_recent hours limit now st' = Raise e).
Proof.
  unfold state.get_recent, timedelta_hours, datetime_sub.
  destruct (Z.leb_spec (-999999999) (hours * 3600 / 86400));
    destruct (Z.leb_spec (hours * 3600 / 86400) 999999999);
    cbn [andb mbind Result_bind];
    try (split; [split; [intros (r & Hr); discriminate Hr | lia]
                |intros e He; injection He as <-; eauto]).
  destruct (Z.leb_spec 0 (now - hours * us_per_hour));
    destruct (Z.leb_spec (now - hours * us_per_hour) datetime_max);
    cbn [andb mbind Result_bind];
    try (split; [split; [intros (r & Hr); discriminate Hr | lia]
                |intros e He; injection He as <-; eauto]).
  split; [split; [lia | eauto] | intros e He; discriminate He].
Qed.

(** The context and the submissions do not interfere: setting the context
    and storing a record give the same state in either order, and the recent
    view does not depend on the context. *)
Theorem set_context_add_submission_commute (lax : pyval -> option Z)
    (said : string) (h : Highlight) (id : pyval) (t : datetime)
    (context : string) (set_at : datetime) (st : state.State) :
  state.set_context context set_at
    (snd (state.add_submission lax said h id t st))
  = snd (state.add_submission lax said h id t
           (state.set_context context set_at st)) /\
  fst (state.add_submission lax said h id t
         (state.set_context context set_at st))
  = fst (state.add_submission lax said h id t st) /\
  (forall hours limit now,
     state.get_recent hours limit now (state.set_context context set_at st)
     = state.get_recent hours limit now st).
Proof.
  split; [|split; [|reflexivity]];
    destruct (validate_optional_int lax id) as [rid|e] eqn:Hv;
    rewrite ?(add_submission_ok _ _ _ _ _ _ _ Hv),
            ?(add_submission_raise _ _ _ _ _ _ _ Hv); reflexivity.
Qed.

(** ** api.py: GET /recent *)

Lemma format_recent_context_empty_iff (submissions : list SubmissionRecord) :
  state.format_recent_context submissions = "" <-> submissions = [].
Proof.
  split; [|now intros ->].
  destruct submissions as [|s rest]; [reflexivity|].
  unfold state.format_recent_context. cbn [map]. intros H.
  destruct rest; cbn in H; discriminate H.
Qed.

(** As long as two hours ago is a datetime, [GET /recent] answers without
    touching anything; its [highlights] are the recent view, [count] is
    their number and at most 10, and [context_string] is empty exactly when
    there is nothing to show. *)
Theorem get_recent_route (now : datetime) (w : api.World) :
  2 * us_per_hour <= now <= datetime_max + 2 * us_per_hour ->
  exists response,
    api.get_recent now w = (Ok response, w) /\
    state.get_recent 2 10 now (api.globals w) = Ok (rr_highlights response) /\
    rr_count response = Z.of_nat (length (rr_highlights response)) /\
    0 <= rr_count response <= 10 /\
    rr_context_string response
    = state.format_recent_context (rr_highlights response) /\
    (rr_context_string response = "" <-> rr_count response = 0).
Proof.
  intros Hnow.
  assert (Hr : state.get_recent 2 10 now (api.globals w)
               = Ok (take 10
                       (sort_desc created_at
                          (List.filter
                             (fun s => now - 2 * us_per_hour <=? created_at s)
                             (state.submissions (api.globals w)))))).
  { rewrite get_recent_eq; [reflexivity | vm_compute; split; discriminate |].
    unfold datetime_max, us_per_hour, us_per_second in *. lia. }
  eexists. unfold api.get_recent, mbind, M_bind, get, lift. rewrite Hr.
  split; [reflexivity|]. cbn [rr_highlights rr_count rr_context_string].
  split; [reflexivity|]. split; [reflexivity|].
  split; [rewrite length_take; lia|]. split; [reflexivity|].
  rewrite format_recent_context_empty_iff.
  destruct (take 10 _); cbn [length]; split; intros H;
    try reflexivity; discriminate || lia.
Qed.

Lemma get_recent_route_witness :
  exists response,
    api.get_recent samples.noon
      {| api.globals := samples.history; api.sent := [] |}
    = (Ok response, {| api.globals := samples.history; api.sent := [] |}) /\
    0 <= rr_count response <= 10.
Proof.
  destruct (get_recent_route samples.noon
              {| api.globals := samples.history; api.sent := [] |})
    as (response & Hrun & _ & _ & Hbound & _).
  - vm_compute. split; discriminate.
  - exists response. split; assumption.
Defined.

(** ** schemas.py: the enumerations *)

(** The value shown in the message of a failed lookup: quotes are chosen
    and characters escaped as [repr] does. *)
Example py_repr_examples :
  py_repr "invalidvalue" = "'invalidvalue'" /\
  py_repr "it's" = String "034" ("it's" +:+ String "034" "") /\
  py_repr (String "034" "it's") = String "039" (String "034" "it")
                                   +:+ String "092" "'s'" /\
  py_repr (String "009" (String "001" (String "092" (String "233" ""))))
  = "'" +:+ String "092" "t" +:+ String "092" "x01"
    +:+ String "092" (String "092" (String "233" "'")).
Proof. repeat split; reflexivity. Qed.

(** Looking a member up by its value and reading a member's value are
    inverse to each other, for both enumerations; a string that is no
    member's value is refused with a [ValueError]. *)
Theorem enum_value_round_trip :
  (forall c, Category_of (Category_value c) = Ok c) /\
  (forall s c, Category_of s = Ok c -> Category_value c = s) /\
  (forall s e, Category_of s = Raise e ->
     (forall c, Category_value c <> s) /\
     exists msg, e = Builtin "ValueError" msg) /\
  (forall t, LocationType_of (LocationType_value t) = Ok t) /\
  (forall s t, LocationType_of s = Ok t -> LocationType_value t = s) /\
  (forall s e, LocationType_of s = Raise e ->
     (forall t, LocationType_value t <> s) /\
     exists msg, e = Builtin "ValueError" msg).
Proof.
  split; [intros []; reflexivity|].
  split.
  { intros s c. unfold Category_of.
    destruct (String.eqb_spec s "books") as [->|H1];
      [intros H; injection H as <-; reflexivity|].
    destruct (String.eqb_spec s "articles") as [->|H2];
      [intros H; injection H as <-; reflexivity|].
    destruct (String.eqb_spec s "podcasts") as [->|H3];
      [intros H; injection H as <-; reflexivity|].
    destruct (String.eqb_spec s "tweets") as [->|H4];
      [intros H; injection H as <-; reflexivity|].
    discriminate. }
  split.
  { intros s e. unfold Category_of.
    destruct (String.eqb_spec s "books") as [->|H1]; [discriminate|].
    destruct (String.eqb_spec s "articles") as [->|H2]; [discriminate|].
    destruct (String.eqb_spec s "podcasts") as [->|H3]; [discriminate|].
    destruct (String.eqb_spec s "tweets") as [->|H4]; [discriminate|].
    intros H. injection H as <-. split; [|eauto].
    intros [] Hc; cbn in Hc; congruence. }
  split; [intros []; reflexivity|].
  split.
  { intros s t. unfold LocationType_of.
    destruct (String.eqb_spec s "page") as [->|H1];
      [intros H; injection H as <-; reflexivity|].
    destruct (String.eqb_spec s "order") as [->|H2];
      [intros H; injection H as <-; reflexivity|].
    destruct (String.eqb_spec s "time_offset") as [->|H3];
      [intros H; injection H as <-; reflexivity|].
    discriminate. }
  intros s e. unfold LocationType_of.
  destruct (String.eqb_spec s "page") as [->|H1]; [discriminate|].
  destruct (String.eqb_spec s "order") as [->|H2]; [discriminate|].
  destruct (String.eqb_spec s "time_offset") as [->|H3]; [discriminate|].
  intros H. injection H as <-. split; [|eauto].
  intros [] Hc; cbn in Hc; congruence.
Qed.

(** ** services/claude.py: failures and the message sent *)

(** [parse] raises nothing but [ParsingError], and the message always
    starts with "Parsing failed: ": it is followed by the provider's own
    message when the provider raises, and by the [AttributeError] of reading
    a field of [None] when the response carries no parsed record. *)
Theorem parse_failures
    (messages_parse : string -> string + option claude.ParsedHighlight)
    (transcript : string) (context : option claude.Context) :
  (forall e, claude.parse messages_parse transcript context = Raise e ->
     exists msg, e = ParsingError ("Parsing failed: " +:+ msg)) /\
  (forall cs msg,
     claude.context_str context = Ok cs ->
     messages_parse (claude.user_content transcript cs) = inl msg ->
     claude.parse messages_parse transcript context
     = Raise (ParsingError ("Parsing failed: " +:+ msg))) /\
  (forall cs,
     claude.context_str context = Ok cs ->
     messages_parse (claude.user_content transcript cs) = inr None ->
     claude.parse messages_parse transcript context
     = Raise (ParsingError
                "Parsing failed: 'NoneType' object has no attribute 'category'")).
Proof.
  split; [|split].
  - unfold claude.parse, try_except.
    destruct (_ ≫= _) as [h|e']; intros e H; inversion H; eauto.
  - intros cs msg Hcs Hp. unfold claude.parse. rewrite Hcs.
    cbn [mbind Result_bind]. rewrite Hp. reflexivity.
  - intros cs Hcs Hp. unfold claude.parse. rewrite Hcs.
    cbn [mbind Result_bind]. rewrite Hp. reflexivity.
Qed.

(** With no context, or with a context that has no current string (absent
    or empty) and no recent entries, the provider is sent the transcript
    alone, with no "Context:" section, and [parse] answers as it does
    without a context. *)
Theorem parse_without_context
    (messages_parse : string -> string + option claude.ParsedHighlight)
    (transcript : string) (context : option claude.Context) :
  (forall c, context = Some c ->
     str_truthy (claude.current c) = false /\ claude.recent c = []) ->
  claude.context_str context = Ok "" /\
  claude.user_content transcript "" = "Transcript: " +:+ transcript /\
  claude.parse messages_parse transcript context
  = claude.parse messages_parse transcript None /\
  (forall p, messages_parse ("Transcript: " +:+ transcript) = inr (Some p) ->
     claude.parse messages_parse transcript context = claude.to_highlight p).
Proof.
  intros Hc.
  assert (Hcs : claude.context_str context = Ok "").
  { destruct context as [c|]; [|reflexivity].
    destruct (Hc c eq_refl) as [Hcur Hrec].
    unfold claude.context_str. now rewrite Hcur, Hrec. }
  assert (Hu : claude.user_content transcript "" = "Transcript: " +:+ transcript).
  { unfold claude.user_content. cbn [String.eqb].
    now rewrite !str_app_nil_r. }
  split; [exact Hcs|]. split; [exact Hu|].
  unfold claude.parse. rewrite Hcs. cbn [claude.context_str mbind Result_bind].
  rewrite Hu. split; [reflexivity|].
  intros p Hp. rewrite Hp. cbn [mbind Result_bind].
  destruct (to_highlight_ok p) as (h & Hh & _). rewrite Hh. reflexivity.
Qed.

Lemma parse_without_context_witness :
  claude.parse (samples.extracts samples.parsed_habits) samples.spoken
    (Some {| claude.current := Some ""; claude.recent := [] |})
  = claude.parse (samples.extracts samples.parsed_habits) samples.spoken None.
Proof.
  apply (parse_without_context (samples.extracts samples.parsed_habits)
           samples.spoken
           (Some {| claude.current := Some ""; claude.recent := [] |})).
  intros c Hc. injection Hc as <-. split; reflexivity.
Defined.

(** What [parse] hands on is in normal form: no optional string is the
    empty string, a location is positive, and a negative location from the
    provider is dropped like zero. *)
Theorem to_highlight_normal_form (p : claude.ParsedHighlight) :
  exists h,
    claude.to_highlight p = Ok h /\
    title h <> Some "" /\ author h <> Some "" /\ note h <> Some "" /\
    (forall n, location h = Some n -> 0 < n /\ n = claude.p_location p) /\
    (claude.p_location p <= 0 -> location h = None).
Proof.
  unfold claude.to_highlight.
  destruct (to_highlight_category (claude.p_category p)) as (oc & Hc & _).
  destruct (to_highlight_location_type (claude.p_location_type p))
    as (ot & Ht & _).
  rewrite Hc. cbn [mbind Result_bind]. rewrite Ht. cbn [mbind Result_bind].
  eexists. split; [reflexivity|].
  cbn [title author note location].
  repeat split;
    try (match goal with
         | |- (if String.eqb ?s "" then _ else _) <> _ =>
             destruct (String.eqb_spec s ""); congruence
         end);
    destruct (Z.ltb_spec 0 (claude.p_location p)); congruence || lia.
Qed.

(** ** From the provider's record to the payload *)

Lemma to_highlight_location (p : claude.ParsedHighlight) (h : Highlight) :
  claude.to_highlight p = Ok h ->
  location h = if 0 <? claude.p_location p then Some (claude.p_location p)
               else None.
Proof.
  unfold claude.to_highlight.
  destruct (to_highlight_category (claude.p_category p)) as (oc & Hc & _).
  destruct (to_highlight_location_type (claude.p_location_type p))
    as (ot & Ht & _).
  rewrite Hc. cbn [mbind Result_bind]. rewrite Ht. cbn [mbind Result_bind].
  intros H. injection H as <-. reflexivity.
Qed.

(** A record of the extraction provider reaches the highlights-storage
    provider field by field: [text] as it is; [author], [note] and a
    positive [location] as they are, and not at all when the provider left
    them empty or zero; [category] and [location_type] with the very string
    the provider gave when it names a member, and not at all otherwise. *)
Theorem parsed_highlight_payload (p : claude.ParsedHighlight) (h : Highlight) :
  claude.to_highlight p = Ok h ->
  let d := readwise.highlight_data h in
  d !! "text" = Some (PStr (claude.p_text p)) /\
  d !! "author" = (if String.eqb (claude.p_author p) "" then None
                   else Some (PStr (claude.p_author p))) /\
  d !! "note" = (if String.eqb (claude.p_note p) "" then None
                 else Some (PStr (claude.p_note p))) /\
  d !! "location" = (if 0 <? claude.p_location p
                     then Some (PInt (claude.p_location p)) else None) /\
  (forall c, Category_value c = claude.p_category p ->
     d !! "category" = Some (PStr (claude.p_category p))) /\
  ((forall c, Category_value c <> claude.p_category p) ->
   d !! "category" = None) /\
  (forall t, LocationType_value t = claude.p_location_type p ->
     d !! "location_type" = Some (PStr (claude.p_location_type p))) /\
  ((forall t, LocationType_value t <> claude.p_location_type p) ->
   d !! "location_type" = None).
Proof.
  intros Hh d.
  destruct (to_highlight_ok p)
    as (h' & Hh' & Htext & _ & _ & Ha1 & Ha2 & Hn1 & Hn2 & Hl1 & Hl2 & Hc & Ht).
  assert (h' = h) as -> by congruence.
  destruct (highlight_data_lookup h)
    as (Dtext & _ & _ & Da & Dc & Dn & Dl & Dt).
  fold d in Dtext, Da, Dc, Dn, Dl, Dt.
  split; [now rewrite Dtext, Htext|].
  split.
  { rewrite Da. destruct (String.eqb_spec (claude.p_author p) "") as [E|E].
    - now rewrite (Ha1 E).
    - rewrite (Ha2 E). cbn.
      destruct (String.eqb_spec (claude.p_author p) ""); [contradiction|].
      reflexivity. }
  split.
  { rewrite Dn. destruct (String.eqb_spec (claude.p_note p) "") as [E|E].
    - now rewrite (Hn1 E).
    - rewrite (Hn2 E). cbn.
      destruct (String.eqb_spec (claude.p_note p) ""); [contradiction|].
      reflexivity. }
  split.
  { rewrite Dl, (to_highlight_location p h Hh).
    now destruct (0 <? claude.p_location p). }
  split.
  { intros c Hv. rewrite Dc. apply Hc in Hv. rewrite Hv. cbn.
    apply Hc in Hv. now rewrite Hv. }
  split.
  { intros Hno. rewrite Dc. destruct (category h) as [c|] eqn:Ec; [|reflexivity].
    exfalso. apply (Hno c). now apply Hc. }
  split.
  { intros t Hv. rewrite Dt. apply Ht in Hv. rewrite Hv. cbn.
    apply Ht in Hv. now rewrite Hv. }
  intros Hno. rewrite Dt. destruct (location_type h) as [t|] eqn:Et; [|reflexivity].
  exfalso. apply (Hno t). now apply Ht.
Qed.

Lemma parsed_highlight_payload_witness :
  readwise.highlight_data samples.habits_page_42 !! "category"
  = Some (PStr "books").
Proof.
  destruct (parsed_highlight_payload samples.parsed_habits
              samples.habits_page_42 eq_refl)
    as (_ & _ & _ & _ & Hc & _).
  exact (Hc books eq_refl).
Defined.

(** ** services/readwise.py: failures and traffic *)

(** A titled highlight answered with a status outside 200..299 fails with
    the status code in the message, whatever the body says. *)
Theorem submit_highlight_http_error (token : string)
    (post : readwise.HttpRequest -> readwise.HttpOutcome) (h : Highlight)
    (sent : list readwise.HttpRequest) (code : Z) (body : string + pyval) :
  str_truthy (title h) = true ->
  post (readwise.submission_request token h) = readwise.HttpResponse code body ->
  code < 200 \/ 299 < code ->
  readwise.submit_highlight token post h sent
  = (Raise (ReadwiseError ("Readwise API error: " +:+ pretty code)),
     sent ++ [readwise.submission_request token h]).
Proof.
  intros Ht Hpost Hcode. rewrite submit_highlight_titled by exact Ht.
  rewrite Hpost.
  destruct (Z.leb_spec 200 code); destruct (Z.leb_spec code 299);
    try reflexivity; lia.
Qed.

Lemma submit_highlight_http_error_witness :
  readwise.submit_highlight "token"
    (samples.answers (readwise.HttpResponse 401 (inr samples.created_123)))
    samples.habits []
  = (Raise (ReadwiseError "Readwise API error: 401"),
     [readwise.submission_request "token" samples.habits]).
Proof.
  apply (submit_highlight_http_error "token"
           (samples.answers (readwise.HttpResponse 401 (inr samples.created_123)))
           samples.habits [] 401 (inr samples.created_123)).
  - reflexivity.
  - reflexivity.
  - right. lia.
Defined.

(** A titled highlight whose request dies in transport fails with the
    transport's message behind "Failed to submit to Readwise: ". *)
Theorem submit_highlight_transport_error (token : string)
    (post : readwise.HttpRequest -> readwise.HttpOutcome) (h : Highlight)
    (sent : list readwise.HttpRequest) (msg : string) :
  str_truthy (title h) = true ->
  post (readwise.submission_request token h) = readwise.TransportError msg ->
  readwise.submit_highlight token post h sent
  = (Raise (ReadwiseError ("Failed to submit to Readwise: " +:+ msg)),
     sent ++ [readwise.submission_request token h]).
Proof.
  intros Ht Hpost. rewrite submit_highlight_titled by exact Ht.
  now rewrite Hpost.
Qed.

Lemma submit_highlight_transport_error_witness :
  readwise.submit_highlight "token"
    (samples.answers (readwise.TransportError "timed out"))
    samples.habits []
  = (Raise (ReadwiseError "Failed to submit to Readwise: timed out"),
     [readwise.submission_request "token" samples.habits]).
Proof.
  apply (submit_highlight_transport_error "token"
           (samples.answers (readwise.TransportError "timed out"))
           samples.habits [] "timed out"); reflexivity.
Defined.

(** [submit_highlight] sends one request when the highlight has a title
    and none when it has not, never more, after those sent before; and it
    raises nothing but [ReadwiseError]. *)
Theorem submit_highlight_traffic (token : string)
    (post : readwise.HttpRequest -> readwise.HttpOutcome) (h : Highlight)
    (sent : list readwise.HttpRequest) :
  snd (readwise.submit_highlight token post h sent)
  = sent ++ (if str_truthy (title h)
             then [readwise.submission_request token h] else []) /\
  (forall e, fst (readwise.submit_highlight token post h sent) = Raise e ->
     exists msg, e = ReadwiseError msg).
Proof.
  split.
  - destruct (str_truthy (title h)) eqn:Ht.
    + now rewrite submit_highlight_titled.
    + unfold readwise.submit_highlight. rewrite Ht. cbn. now rewrite app_nil_r.
  - apply submit_highlight_raises.
Qed.

(** The payload never has a key outside the eight the service knows, always
    has [text], [title] and [source_type], and [source_type] is always
    "updates_app". *)
Theorem highlight_data_keys (h : Highlight) (k : string) :
  let d := readwise.highlight_data h in
  (is_Some (d !! k) ->
   In k ["text"; "title"; "source_type"; "author"; "category"; "note";
         "location"; "location_type"]) /\
  is_Some (d !! "text") /\ is_Some (d !! "title") /\
  d !! "source_type" = Some (PStr "updates_app").
Proof.
  intros d. split.
  - intros [v Hk]. unfold d, readwise.highlight_data in Hk.
    destruct (str_truthy (author h)), (category h), (str_truthy (note h)),
      (location h), (location_type h);
    repeat (apply lookup_insert_Some in Hk as [[<- _]|[_ Hk]];
            [cbn; tauto|]);
    rewrite lookup_empty in Hk; discriminate Hk.
  - destruct (highlight_data_lookup h) as (Ht & Hti & Hs & _).
    fold d in Ht, Hti, Hs. rewrite Ht, Hti, Hs. eauto.
Qed.

(** [check_connection] never raises: it sends one probe and answers [True]
    exactly when the probe comes back with status 204; any other status and
    any transport failure give [False]. *)
Theorem check_connection_spec (token : string)
    (get_ : readwise.HttpGet -> readwise.HttpOutcome)
    (sent : list readwise.HttpGet) :
  exists ok,
    readwise.check_connection token get_ sent
    = (Ok ok, sent ++ [readwise.auth_request token]) /\
    (ok = true
     <-> exists body,
           get_ (readwise.auth_request token) = readwise.HttpResponse 204 body).
Proof.
  unfold readwise.check_connection, try_exceptM, mbind, M_bind, modify.
  destruct (get_ (readwise.auth_request token)) as [msg|code body] eqn:Hg.
  - exists false. split; [reflexivity|].
    split; [discriminate | intros (body & Hb); discriminate Hb].
  - exists (code =? 204). split; [reflexivity|].
    destruct (Z.eqb_spec code 204) as [->|Hne]; split; eauto.
    + discriminate.
    + intros (b & Hb). injection Hb as -> _. contradiction.
Qed.

(** ** services/elevenlabs.py *)

(** [transcribe] succeeds exactly when the provider returns: the transcript
    is the result's [text], or [str(result)] for a result without that
    attribute. When the provider raises, and only then, it raises
    [TranscriptionError] with the provider's message behind
    "Transcription failed: ". *)
Theorem transcribe_outcomes
    (convert : list Byte.byte -> string -> string + elevenlabs.SttResult)
    (audio_bytes : list Byte.byte) (filename : string) :
  (forall result, convert audio_bytes filename = inr result ->
     elevenlabs.transcribe convert audio_bytes filename
     = Ok (default (elevenlabs.stt_str result) (elevenlabs.stt_text result),
           elevenlabs.stt_audio_duration result)) /\
  (forall msg, convert audio_bytes filename = inl msg ->
     elevenlabs.transcribe convert audio_bytes filename
     = Raise (TranscriptionError ("Transcription failed: " +:+ msg))) /\
  (forall e, elevenlabs.transcribe convert audio_bytes filename = Raise e ->
     exists msg, convert audio_bytes filename = inl msg /\
                 e = TranscriptionError ("Transcription failed: " +:+ msg)).
Proof.
  unfold elevenlabs.transcribe.
  destruct (convert audio_bytes filename) as [msg|result]; cbn.
  - split; [discriminate|]. split.
    + intros m H. now injection H as ->.
    + intros e H. injection H as <-. eauto.
  - split; [|split; discriminate].
    intros r H. injection H as ->. now destruct (elevenlabs.stt_text r).
Qed.

(** ** services/claude.py: the context built from the store *)

Lemma str_take_idem (n : nat) (s : string) :
  str_take n (str_take n s) = str_take n s.
Proof.
  revert s. induction n as [|n IH]; intros [|c s]; cbn; try reflexivity.
  now rewrite IH.
Qed.

Lemma recent_line_of_record (s : SubmissionRecord) :
  claude.recent_line
    (<["text" := Some (str_take 100 (text (highlight s)))]>
       (<["title" := title (highlight s)]> (∅ : gmap string (option string))))
  = Ok (String "010" "- [" +:+ fmt_opt_str (title (highlight s)) +:+ "] "
        +:+ str_take 100 (text (highlight s))).
Proof.
  unfold claude.recent_line.
  replace (_ !! "title") with (Some (title (highlight s))) by reflexivity.
  replace (_ !! "text") with (Some (Some (str_take 100 (text (highlight s)))))
    by reflexivity.
  cbn [from_option id]. now rewrite str_take_idem.
Qed.

(** The context the routes build from the store always renders, and this is
    how: the current context, when it is a non-empty string, then, when
    there are recent records, one line per record in the order of the view,
    with the stored title and no more than the first 100 characters of the
    text. *)
Theorem context_str_of_store (current : option string)
    (recent : list SubmissionRecord) :
  claude.context_str (Some (api.extraction_context current recent))
  = Ok ((if str_truthy current
         then String "010" "Current context: " +:+ fmt_opt_str current
         else "")
        +:+ match recent with
            | [] => ""
            | _ =>
                String "010" "Recent highlights:"
                +:+ fold_right
                      (fun s rest =>
                         (String "010" "- ["
                          +:+ fmt_opt_str (title (highlight s)) +:+ "] "
                          +:+ str_take 100 (text (highlight s))) +:+ rest)
                      "" recent
            end).
Proof.
  unfold claude.context_str, api.extraction_context.
  cbn [claude.current claude.recent].
  set (cur := if str_truthy current then _ else _).
  destruct recent as [|s0 rest0]; [now rewrite str_app_nil_r|].
  set (recent := s0 :: rest0).
  set (entry := fun s : SubmissionRecord => _).
  replace (match map entry recent with [] => Ok cur | _ => _ end)
    with (foldl (fun acc r => s ← acc; line ← claude.recent_line r; mret (s +:+ line))
                (Ok (cur +:+ String "010" "Recent highlights:"))
                (map entry recent)) by reflexivity.
  rewrite <- str_app_assoc.
  generalize (cur +:+ String "010" "Recent highlights:") as acc.
  clearbody recent. clear s0 rest0.
  induction recent as [|s rest IH]; intros acc; cbn [map foldl fold_right].
  - now rewrite str_app_nil_r.
  - unfold entry at 1. rewrite recent_line_of_record.
    cbn [mbind Result_bind mret Result_ret]. rewrite IH.
    now rewrite !str_app_assoc.
Qed.

(** ** api.py: the routes *)

Lemma submit_highlight_sent (token : string)
    (post : readwise.HttpRequest -> readwise.HttpOutcome) (h : Highlight)
    (sent : list readwise.HttpRequest) :
  snd (readwise.submit_highlight token post h sent)
  = sent ++ (if str_truthy (title h)
             then [readwise.submission_request token h] else []).
Proof.
  destruct (str_truthy (title h)) eqn:Ht.
  - now rewrite submit_highlight_titled.
  - unfold readwise.submit_highlight. rewrite Ht. cbn. now rewrite app_nil_r.
Qed.

Section RouteFacts.
Variable convert : list Byte.byte -> string -> string + elevenlabs.SttResult.
Variable messages_parse : string -> string + option claude.ParsedHighlight.
Variable token : string.
Variable post : readwise.HttpRequest -> readwise.HttpOutcome.
Variable lax : pyval -> option Z.

(** When the speech-to-text provider raises, [POST /transcribe] answers 500
    with "Transcription failed: " and the provider's message, while
    [POST /process] names the stage twice; neither touches the store or the
    network. *)
Theorem transcription_failure_details (audio : api.UploadFile) (msg : string)
    (now_recent now_record : datetime) (w : api.World) :
  convert (api.content audio) (str_or (api.filename audio) "audio.m4a")
  = inl msg ->
  api.transcribe_audio convert audio
  = Raise (HTTPException 500 ("Transcription failed: " +:+ msg)) /\
  api.process_audio convert messages_parse token post lax audio
    now_recent now_record w
  = (Raise (HTTPException 500
              ("Transcription failed: Transcription failed: " +:+ msg)), w).
Proof.
  intros Hc. split.
  - unfold api.transcribe_audio, elevenlabs.transcribe. rewrite Hc. reflexivity.
  - rewrite process_audio_eq. unfold elevenlabs.transcribe. rewrite Hc.
    reflexivity.
Qed.

(** When extraction fails, [POST /process] answers 500 with
    "Parsing failed: " and the message of the [ParsingError], and nothing
    has been stored or sent. *)
Theorem process_audio_parsing_failure (audio : api.UploadFile)
    (now_recent now_record : datetime) (w : api.World)
    (said : string) (recent : list SubmissionRecord) (msg : string) :
  api.transcription_succeeds convert audio said ->
  state.get_recent 2 10 now_recent (api.globals w) = Ok recent ->
  claude.parse messages_parse said
    (Some (api.extraction_context (state.current_context (api.globals w)) recent))
  = Raise (ParsingError msg) ->
  api.process_audio convert messages_parse token post lax audio
    now_recent now_record w
  = (Raise (HTTPException 500 ("Parsing failed: " +:+ msg)), w).
Proof.
  intros (d & Ht) Hr Hp. now rewrite process_audio_eq, Ht, Hr, Hp.
Qed.

(** What a run of [POST /process] can leave behind: the current context is
    never changed, the records already stored stay where they are with at
    most one added after them, and at most one request goes out, after
    transcription and extraction have succeeded and for a highlight that
    has a title. *)
Theorem process_audio_footprint (audio : api.UploadFile)
    (now_recent now_record : datetime) (w : api.World) :
  let w' := snd (api.process_audio convert messages_parse token post lax
                   audio now_recent now_record w) in
  state.current_context (api.globals w') = state.current_context (api.globals w) /\
  state.context_set_at (api.globals w') = state.context_set_at (api.globals w) /\
  (exists added,
     state.submissions (api.globals w')
     = state.submissions (api.globals w) ++ added /\
     (length added <= 1)%nat) /\
  (api.sent w' = api.sent w \/
   exists said h,
     api.transcription_succeeds convert audio said /\
     api.extraction_succeeds messages_parse w now_recent said h /\
     str_truthy (title h) = true /\
     api.sent w' = api.sent w ++ [readwise.submission_request token h]).
Proof.
  intros w'. unfold w'. rewrite process_audio_eq.
  assert (Hsame : forall g : state.State, exists added,
             state.submissions g = state.submissions g ++ added /\
             (length added <= 1)%nat).
  { intros g. exists []. rewrite app_nil_r. split; [reflexivity | cbn; lia]. }
  destruct (elevenlabs.transcribe _ _ _) as [[said dur]|e] eqn:Et;
    [|cbn [snd]; auto].
  destruct (state.get_recent _ _ _ _) as [recent|e] eqn:Er; [|cbn [snd]; auto].
  destruct (claude.parse _ _ _) as [h|e] eqn:Ep; [|cbn [snd]; auto].
  pose proof (submit_highlight_sent token post h (api.sent w)) as Hsent.
  assert (Hstages :
            forall sent',
              sent' = api.sent w ++ (if str_truthy (title h)
                                     then [readwise.submission_request token h]
                                     else []) ->
              sent' = api.sent w \/
              exists said0 h0,
                api.transcription_succeeds convert audio said0 /\
                api.extraction_succeeds messages_parse w now_recent said0 h0 /\
                str_truthy (title h0) = true /\
                sent' = api.sent w ++ [readwise.submission_request token h0]).
  { intros sent' ->. destruct (str_truthy (title h)) eqn:Hti.
    - right. exists said, h. repeat split; eauto.
      + now exists dur.
      + now exists recent.
    - left. apply app_nil_r. }
  destruct (readwise.submit_highlight token post h (api.sent w))
    as [[id|e] sent'] eqn:Es; cbn [snd] in Hsent.
  - destruct (validate_optional_int lax id) as [rid|e];
      cbn [snd api.globals api.sent state.current_context
           state.context_set_at state.submissions].
    + split; [reflexivity|]. split; [reflexivity|].
      split; [|now apply Hstages].
      eexists. split; [reflexivity | cbn; lia].
    + split; [reflexivity|]. split; [reflexivity|].
      split; [|now apply Hstages]. apply Hsame.
  - cbn [snd api.globals api.sent].
    split; [reflexivity|]. split; [reflexivity|].
    split; [|now apply Hstages]. apply Hsame.
Qed.

(** [parse_transcript], stage by stage. *)
Lemma parse_transcript_eq (request : ParseRequest) (now : datetime)
    (w : api.World) :
  api.parse_transcript messages_parse request now w
  = (if include_recent_context request
     then
       match state.get_recent 2 10 now (api.globals w) with
       | Raise e => Raise e
       | Ok recent =>
           match claude.parse messages_parse (pq_text request)
                   (Some (api.extraction_context
                            (state.current_context (api.globals w)) recent)) with
           | Ok h => Ok h
           | Raise e => Raise (HTTPException 500 (exn_str e))
           end
       end
     else
       match claude.parse messages_parse (pq_text request) None with
       | Ok h => Ok h
       | Raise e => Raise (HTTPException 500 (exn_str e))
       end, w).
Proof.
  unfold api.parse_transcript, try_exceptM.
  destruct (include_recent_context request).
  - unfold mbind at 1. unfold M_bind at 1.
    unfold mbind at 1. unfold M_bind at 1. unfold get at 1.
    cbn [state.get_context].
    unfold mbind at 1. unfold M_bind at 1. unfold lift at 1.
    destruct (state.get_recent 2 10 now (api.globals w)) as [recent|e] eqn:Er.
    + cbn [mret M_ret]. unfold lift.
      destruct (claude.parse _ _ _) as [h|e] eqn:Ep; [reflexivity|].
      apply parse_raises in Ep as (m & ->). reflexivity.
    + apply get_recent_raises in Er as (k & m & ->). reflexivity.
  - unfold mbind, M_bind, mret, M_ret, lift.
    destruct (claude.parse _ _ _) as [h|e] eqn:Ep; [reflexivity|].
    apply parse_raises in Ep as (m & ->). reflexivity.
Qed.

(** [POST /parse] never changes anything it can touch, and only answers
    with a highlight or with a 500 whose detail is the [ParsingError]'s
    message. Told not to include the recent context, it neither reads the
    store nor depends on the clock: the provider gets the text alone. *)
Theorem parse_transcript_spec (request : ParseRequest) (now : datetime)
    (w : api.World) :
  snd (api.parse_transcript messages_parse request now w) = w /\
  (include_recent_context request = false ->
   fst (api.parse_transcript messages_parse request now w)
   = match claude.parse messages_parse (pq_text request) None with
     | Ok h => Ok h
     | Raise e => Raise (HTTPException 500 (exn_str e))
     end) /\
  (forall recent,
     include_recent_context request = true ->
     state.get_recent 2 10 now (api.globals w) = Ok recent ->
     fst (api.parse_transcript messages_parse request now w)
     = match claude.parse messages_parse (pq_text request)
               (Some (api.extraction_context
                        (state.current_context (api.globals w)) recent)) with
       | Ok h => Ok h
       | Raise e => Raise (HTTPException 500 (exn_str e))
       end).
Proof.
  rewrite parse_transcript_eq. cbn [fst snd].
  split; [reflexivity|]. split.
  - now intros ->.
  - intros recent -> ->. reflexivity.
Qed.

(** [submit_to_readwise], stage by stage. *)
Lemma submit_to_readwise_eq (request : SubmitRequest) (w : api.World) :
  api.submit_to_readwise token post lax request w
  = match readwise.submit_highlight token post
            {| text := sq_text request; title := sq_title request;
               author := sq_author request; category := sq_category request;
               note := sq_note request; location := sq_location request;
               location_type := sq_location_type request |}
            (api.sent w) with
    | (Raise e, sent') =>
        (Raise (HTTPException 500 (exn_str e)),
         {| api.globals := api.globals w; api.sent := sent' |})
    | (Ok id, sent') =>
        (match validate_optional_int lax id with
         | Ok rid => Ok {| sr_success := true; sr_readwise_id := rid |}
         | Raise e => Raise e
         end,
         {| api.globals := api.globals w; api.sent := sent' |})
    end.
Proof.
  unfold api.submit_to_readwise, try_exceptM.
  unfold mbind at 1. unfold M_bind at 1. unfold api.on_network at 1.
  pose proof (submit_highlight_raises token post
                {| text := sq_text request; title := sq_title request;
                   author := sq_author request; category := sq_category request;
                   note := sq_note request; location := sq_location request;
                   location_type := sq_location_type request |}
                (api.sent w)) as Hraise.
  destruct (readwise.submit_highlight _ _ _ _) as [[id|e] sent'].
  - unfold mbind, M_bind, lift, mret, M_ret.
    destruct (validate_optional_int lax id) as [rid|e] eqn:Ev; [reflexivity|].
    unfold validate_optional_int in Ev.
    destruct id; try discriminate Ev; destruct (lax _); inversion Ev;
      reflexivity.
  - destruct (Hraise e eq_refl) as (m & ->). reflexivity.
Qed.

(** [POST /submit] never stores anything, even when the highlight is
    accepted: the globals of [state] are as before, and at most the one
    request goes out. A refusal by [submit_highlight] comes back as a 500
    whose detail is the error's message, the title guard included. *)
Theorem submit_to_readwise_spec (request : SubmitRequest) (w : api.World) :
  let h := {| text := sq_text request; title := sq_title request;
              author := sq_author request; category := sq_category request;
              note := sq_note request; location := sq_location request;
              location_type := sq_location_type request |} in
  let run := api.submit_to_readwise token post lax request w in
  api.globals (snd run) = api.globals w /\
  api.sent (snd run)
  = api.sent w ++ (if str_truthy (sq_title request)
                   then [readwise.submission_request token h] else []) /\
  (forall msg,
     fst (readwise.submit_highlight token post h (api.sent w))
     = Raise (ReadwiseError msg) ->
     fst run = Raise (HTTPException 500 msg)) /\
  (forall id rid,
     fst (readwise.submit_highlight token post h (api.sent w)) = Ok id ->
     validate_optional_int lax id = Ok rid ->
     fst run = Ok {| sr_success := true; sr_readwise_id := rid |}).
Proof.
  intros h run. unfold run. rewrite submit_to_readwise_eq. fold h.
  pose proof (submit_highlight_sent token post h (api.sent w)) as Hsent.
  change (title h) with (sq_title request) in Hsent.
  destruct (readwise.submit_highlight token post h (api.sent w))
    as [[id|e] sent'] eqn:Es; cbn [fst snd] in *; subst sent';
    cbn [api.globals api.sent].
  - split; [reflexivity|]. split; [reflexivity|]. split; [discriminate|].
    intros id' rid Hid Hv. injection Hid as <-. now rewrite Hv.
  - split; [reflexivity|]. split; [reflexivity|]. split; [|discriminate].
    intros msg Hm. now injection Hm as ->.
Qed.

(** [PUT /context] and what follows it: [GET /context] gives back the text
    and the time it was set, and the text is the current context of the very
    next [POST /parse], with the recent view as it was. *)
Theorem set_context_then_parse (context : string) (set_at now : datetime)
    (request : ParseRequest) (recent : list SubmissionRecord) (w : api.World) :
  include_recent_context request = true ->
  state.get_recent 2 10 now (api.globals w) = Ok recent ->
  let w' := snd (api.set_context context set_at w) in
  fst (api.set_context context set_at w) = Ok true /\
  api.globals w' = state.set_context context set_at (api.globals w) /\
  api.sent w' = api.sent w /\
  api.get_context w'
  = (Ok {| cr_context := Some context; cr_set_at := Some set_at |}, w') /\
  api.parse_transcript messages_parse request now w'
  = (match claude.parse messages_parse (pq_text request)
             (Some (api.extraction_context (Some context) recent)) with
     | Ok h => Ok h
     | Raise e => Raise (HTTPException 500 (exn_str e))
     end, w').
Proof.
  intros Hinc Hr w'. split; [reflexivity|]. split; [reflexivity|].
  split; [reflexivity|]. split; [reflexivity|].
  rewrite parse_transcript_eq, Hinc.
  change (state.get_recent 2 10 now (api.globals w'))
    with (state.get_recent 2 10 now (api.globals w)).
  rewrite Hr. reflexivity.
Qed.
End RouteFacts.

(** [GET /health] never raises. It reports "ok" exactly when the probe of
    the highlights-storage provider comes back with status 204 and
    "degraded" otherwise; the other two providers are reported up without
    being asked. *)
Theorem health_check_spec (token : string)
    (get_ : readwise.HttpGet -> readwise.HttpOutcome)
    (sent : list readwise.HttpGet) :
  exists response,
    api.health_check token get_ sent
    = (Ok response, sent ++ [readwise.auth_request token]) /\
    (hr_status response = "ok"
     <-> exists body,
           get_ (readwise.auth_request token) = readwise.HttpResponse 204 body) /\
    (hr_status response = "ok" \/ hr_status response = "degraded") /\
    hr_services response !! "elevenlabs" = Some true /\
    hr_services response !! "anthropic" = Some true /\
    hr_services response !! "readwise"
    = Some (bool_decide (hr_status response = "ok")).
Proof.
  unfold api.health_check, readwise.check_connection, try_exceptM,
    mbind, M_bind, modify.
  destruct (get_ (readwise.auth_request token)) as [msg|code body] eqn:Hg.
  - eexists. split; [reflexivity|]. cbn.
    repeat split; try reflexivity; try discriminate; auto.
    intros (b & Hb). discriminate Hb.
  - destruct (Z.eqb_spec code 204) as [->|Hne];
      (eexists; split; [reflexivity|]); cbn;
      repeat split; try reflexivity; try discriminate; eauto.
    intros (b & Hb). injection Hb as -> _. contradiction.
Qed.

(** The speech-to-text provider is down. *)
Lemma transcription_failure_details_witness :
  api.transcribe_audio (samples.deaf "quota exceeded") samples.recording
  = Raise (HTTPException 500 "Transcription failed: quota exceeded") /\
  api.process_audio (samples.deaf "quota exceeded")
    (samples.extracts samples.parsed_habits) "token"
    (samples.answers (readwise.HttpResponse 200 (inr samples.created_123)))
    samples.no_conversion samples.recording samples.noon samples.noon
    samples.fresh
  = (Raise (HTTPException 500
              "Transcription failed: Transcription failed: quota exceeded"),
     samples.fresh).
Proof.
  apply (transcription_failure_details (samples.deaf "quota exceeded")
           (samples.extracts samples.parsed_habits) "token"
           (samples.answers (readwise.HttpResponse 200 (inr samples.created_123)))
           samples.no_conversion samples.recording "quota exceeded"
           samples.noon samples.noon samples.fresh).
  reflexivity.
Defined.

(** The extraction provider is down. *)
Lemma process_audio_parsing_failure_witness :
  api.process_audio (samples.hears samples.spoken)
    (samples.refuses "overloaded") "token"
    (samples.answers (readwise.HttpResponse 200 (inr samples.created_123)))
    samples.no_conversion samples.recording samples.noon samples.noon
    samples.fresh
  = (Raise (HTTPException 500 "Parsing failed: Parsing failed: overloaded"),
     samples.fresh).
Proof.
  apply (process_audio_parsing_failure (samples.hears samples.spoken)
           (samples.refuses "overloaded") "token"
           (samples.answers (readwise.HttpResponse 200 (inr samples.created_123)))
           samples.no_conversion samples.recording samples.noon samples.noon
           samples.fresh samples.spoken [] "Parsing failed: overloaded").
  - exists None. reflexivity.
  - reflexivity.
  - reflexivity.
Defined.

(** Setting "Atomic Habits" as the context of a fresh process, then parsing. *)
Lemma set_context_then_parse_witness :
  api.get_context (snd (api.set_context "Atomic Habits" samples.noon samples.fresh))
  = (Ok {| cr_context := Some "Atomic Habits"; cr_set_at := Some samples.noon |},
     snd (api.set_context "Atomic Habits" samples.noon samples.fresh)).
Proof.
  apply (set_context_then_parse (samples.extracts samples.parsed_bare)
           "Atomic Habits" samples.noon samples.noon
           {| pq_text := samples.spoken; include_recent_context := true |}
           [] samples.fresh); reflexivity.
Defined.

(** ** api.py: the context of every world the program reaches *)





